(** * VIIRS night-lights summary script: extraction, aggregation and report

    A shallow embedding of [data7_code.py]: lines 96-192, the loop over the
    downloaded files, the statistics of the clipped raster, the date token
    taken from the file name, and the CSV report; and lines 25-90, the
    login, the search and the download that come before.

    The script calls libraries whose code is not part of the program:
    - [earthaccess] and [os.makedirs]: taken as the answers of one run
      ([world]), each call raising or returning;
    - [rasterio] ([rasterio.open], [mask]): taken as an oracle of the run,
      which for a path either raises or returns the clipped array;
    - [numpy] (the comparison [> 0], [np.mean], [np.median]): taken as an
      interface [PixelOps], instantiated below ([Np]) with arrays of IEEE 754
      numbers of type float32 or float64 and the arithmetic of those types;
    - [pandas] ([pd.DataFrame], [to_csv], [head]): modelled at the level of
      columns, rows and cells; so is [read_csv], which the script does not
      call and which serves to state what reading the summary back gives. *)

From Stdlib Require Import Ascii String.
From Stdlib Require Import List Bool Arith ZArith NArith Lia.
From Stdlib Require Import Floats.SpecFloat DecimalString.
Import ListNotations.
Open Scope nat_scope.

Set Implicit Arguments.

(** ** Python strings *)

(** A Python [str] is a sequence of Unicode code points. *)
Module Str.

Definition char := N.
Definition str := list char.

(** A literal of the source, written as a Rocq string. *)
Definition py (s : string) : str := map N_of_ascii (list_ascii_of_string s).

Definition dot : char := 46%N.
Definition slash : char := 47%N.

Fixpoint eqb (s t : str) : bool :=
  match s, t with
  | [], [] => true
  | a :: s', b :: t' => N.eqb a b && eqb s' t'
  | _, _ => false
  end.

(** [s.endswith(suffix)] *)
Definition endswith (s suffix : str) : bool :=
  (length suffix <=? length s)%nat
  && eqb (skipn (length s - length suffix) s) suffix.

(** [s.startswith(prefix)] *)
Definition startswith (s prefix : str) : bool :=
  eqb (firstn (length prefix) s) prefix.

(** [s.rfind(c)] for a one-character [c]: the index of the last
    occurrence, or -1. *)
Fixpoint rfind (c : char) (s : str) : Z :=
  match s with
  | [] => (-1)%Z
  | x :: s' =>
      let r := rfind c s' in
      if (0 <=? r)%Z then (r + 1)%Z
      else if N.eqb x c then 0%Z else (-1)%Z
  end.

(** [os.path.basename(p)] of [posixpath]:
    [i = p.rfind('/') + 1; return p[i:]]. *)
Definition basename (p : str) : str :=
  skipn (Z.to_nat (rfind slash p + 1)) p.

(** [os.path.join(a, b)] of [posixpath], for two components. *)
Definition join (a b : str) : str :=
  if startswith b [slash] then b
  else if (match a with [] => true | _ => false end) || endswith a [slash]
       then a ++ b
       else a ++ slash :: b.

(** [s.split(sep)] for a one-character separator: one more field than
    there are separators, never the empty list. *)
Fixpoint split (sep : char) (s : str) : list str :=
  match s with
  | [] => [[]]
  | c :: s' =>
      if N.eqb c sep then [] :: split sep s'
      else match split sep s' with
           | f :: fs => (c :: f) :: fs
           | [] => [[c]]
           end
  end.

End Str.

Import Str.

(** ** Exceptions *)

(** The exceptions of a run.  Inside the [try] of the loop: an error of
    [rasterio.open] or [mask], carrying its message, or the [IndexError] of
    [filename.split('.')[1]].  Outside it: an [OSError] of [to_csv]. *)
Inductive exn :=
| RasterError (msg : str)
| IndexError
| OSError (msg : str).

(** The text of [{e}] in the diagnostic line. *)
Definition exn_message (e : exn) : str :=
  match e with
  | RasterError msg => msg
  | IndexError => py "list index out of range"
  | OSError msg => msg
  end.

(** [filename.split('.')[1][1:]]: indexing raises [IndexError] when the
    split has fewer than two fields; the slice of a string never raises. *)
Definition date_str (filename : str) : exn + str :=
  match nth_error (split dot filename) 1 with
  | Some field => inr (skipn 1 field)
  | None => inl IndexError
  end.

(** ** Pixels *)

(** The operations of [numpy] used on pixel values. *)
Class PixelOps (px : Type) := {
  gt0 : px -> bool;                (* the elementwise [x > 0] *)
  np_mean : list px -> px;         (* [np.mean] of a one-dimensional array *)
  np_median : list px -> px        (* [np.median] of a one-dimensional array *)
}.

(** The array returned by [mask]: bands, rows, columns. *)
Definition image (px : Type) := list (list (list px)).

(** Boolean-mask indexing [a[m]] returns the selected elements as a
    one-dimensional array, in row-major order. *)
Definition flatten {px} (a : image px) : list px := concat (concat a).

(** [out_image[out_image > 0]] *)
Definition valid_data {px} `{PixelOps px} (out_image : image px) : list px :=
  filter gt0 (flatten out_image).

(** ** Records, tables and printed lines *)

Section Script.

Context {px : Type} `{PixelOps px}.

(** A value stored in a record. *)
Inductive value :=
| VStr (s : str)
| VNum (x : px).

(** A Python [dict] with string keys, in insertion order. *)
Definition dict := list (str * value).

Definition keys (d : dict) : list str := map fst d.

Fixpoint get (d : dict) (k : str) : option value :=
  match d with
  | [] => None
  | (k', v) :: d' => if Str.eqb k' k then Some v else get d' k
  end.

(** A cell of a [DataFrame] or of a CSV line; [CMissing] is the cell of a
    column that a record has no key for, [CIndex] a row label. *)
Inductive cell :=
| CStr (s : str)
| CNum (x : px)
| CMissing
| CIndex (i : nat).

Definition cell_of (v : option value) : cell :=
  match v with
  | Some (VStr s) => CStr s
  | Some (VNum x) => CNum x
  | None => CMissing
  end.

Record DataFrame := {
  columns : list str;
  rows : list (list cell)
}.

(** The keys of a list of dicts in order of first appearance. *)
Fixpoint add_keys (seen ks : list str) : list str :=
  match ks with
  | [] => seen
  | k :: ks' =>
      if existsb (Str.eqb k) seen then add_keys seen ks'
      else add_keys (seen ++ [k]) ks'
  end.

(** [pd.DataFrame(records)] for a list of dicts: the columns are the keys
    in order of first appearance, one row per dict in list order. *)
Definition pd_DataFrame (records : list dict) : DataFrame :=
  let cols := fold_left (fun seen d => add_keys seen (keys d)) records [] in
  {| columns := cols;
     rows := map (fun d => map (fun k => cell_of (get d k)) cols) records |}.

(** The lines of [df.to_csv(path, index=index)]: a header line, then one
    line per row; with [index=True] a first column holds the row labels
    under an empty name. *)
Fixpoint label_from (i : nat) (rs : list (list cell)) : list (list cell) :=
  match rs with
  | [] => []
  | r :: rs' => (CIndex i :: r) :: label_from (S i) rs'
  end.

Definition csv_lines (df : DataFrame) (index : bool) : list (list cell) :=
  if index
  then (CStr [] :: map CStr (columns df)) :: label_from 0 (rows df)
  else map CStr (columns df) :: rows df.

(** [df.head()]: the first five rows. *)
Definition head (df : DataFrame) : DataFrame :=
  {| columns := columns df; rows := firstn 5 (rows df) |}.

(** One constructor per [print] of lines 96-192. *)
Inductive line :=
| PStep4                              (* line 96 *)
| PProcessing (name : str)            (* line 110 *)
| PMean (mean_brightness : px)        (* line 136, shown with two decimals *)
| PFailed (message : str)             (* line 139 *)
| PSaved (output_csv : str)           (* line 147 *)
| PPreviewTitle                       (* line 148 *)
| PPreview (df : DataFrame)           (* line 149 *)
| PNothingProcessed                   (* line 151 *)
| PRule                               (* lines 157, 159, 190, 192 *)
| PAlternativeTitle                   (* line 158 *)
| PAlternativeText                    (* lines 160-188 *)
| PDone.                              (* line 191 *)

(** The state a run acts on: the list [processed_data], what was printed
    (oldest first), and the files written. *)
Record state := {
  processed_data : list dict;
  stdout : list line;
  written : list (str * list (list cell))
}.

Definition print (l : line) (st : state) : state :=
  {| processed_data := processed_data st;
     stdout := stdout st ++ [l];
     written := written st |}.

Definition append (d : dict) (st : state) : state :=
  {| processed_data := processed_data st ++ [d];
     stdout := stdout st;
     written := written st |}.

Definition write_file (path : str) (content : list (list cell)) (st : state)
  : state :=
  {| processed_data := processed_data st;
     stdout := stdout st;
     written := written st ++ [(path, content)] |}.

(** ** The environment of a run *)

(** [open_mask file_path] is what lines 114-117 do for a path: raise, or
    return the clipped array.  [csv_error path] is the error of writing to
    [path], if any. *)
Variable open_mask : str -> exn + image px.
Variable csv_error : str -> option exn.

Definition OUTPUT_DIR : str := py "viirs_data".
Definition h5 : str := py ".h5".

(** ** The loop of lines 108-140 *)

(** The record of lines 129-134. *)
Definition brightness_record (date : str) (mean median : px) (filename : str)
  : dict :=
  [ (py "date", VStr date);
    (py "mean_brightness", VNum mean);
    (py "median_brightness", VNum median);
    (py "file", VStr filename) ].

(** The body of the [try], lines 114-136, up to its effects: [inl e] when
    it raises [e]; [inr None] when [valid_data] is empty; otherwise the
    record to append and the mean to print. *)
Definition try_body (file_path : str) : exn + option (dict * px) :=
  match open_mask file_path with
  | inl e => inl e
  | inr out_image =>
      let valid := valid_data out_image in
      if 0 <? length valid then
        let mean_brightness := np_mean valid in
        let median_brightness := np_median valid in
        let filename := basename file_path in
        match date_str filename with
        | inl e => inl e
        | inr date =>
            inr (Some (brightness_record date mean_brightness
                         median_brightness filename, mean_brightness))
        end
      else inr None
  end.

(** One iteration of the [for] loop. *)
Definition process_file (st : state) (file_path : str) : state :=
  if endswith file_path h5 then
    let st := print (PProcessing (basename file_path)) st in
    match try_body file_path with
    | inr (Some (record, mean_brightness)) =>
        print (PMean mean_brightness) (append record st)
    | inr None => st
    | inl e => print (PFailed (exn_message e)) st
    end
  else st.

Definition process_files (st : state) (downloaded_files : list str) : state :=
  fold_left process_file downloaded_files st.

(** ** The report of lines 143-151 and the end of the script *)

(** How the process ends: at the last line of the script, or on an
    exception nothing catches. *)
Inductive ending :=
| Completed (st : state)
| Traceback (e : exn) (st : state).

Definition output_csv : str :=
  join OUTPUT_DIR (py "viirs_philadelphia_summary.csv").

Definition closing (st : state) : state :=
  print PRule (print PDone (print PRule
    (print PAlternativeText
      (print PRule (print PAlternativeTitle (print PRule st)))))).

Definition report (st : state) : ending :=
  match processed_data st with
  | _ :: _ =>
      let df_viirs := pd_DataFrame (processed_data st) in
      match csv_error output_csv with
      | Some e => Traceback e st
      | None =>
          let st := write_file output_csv (csv_lines df_viirs false) st in
          let st := print (PSaved output_csv) st in
          let st := print PPreviewTitle st in
          let st := print (PPreview (head df_viirs)) st in
          Completed (closing st)
      end
  | [] => Completed (closing (print PNothingProcessed st))
  end.

(** The state before line 96: nothing processed; whatever was printed and
    written by the download is not part of this model. *)
Definition initial : state :=
  {| processed_data := []; stdout := []; written := [] |}.

(** Lines 96-192 for the list returned by [earthaccess.download]. *)
Definition script (downloaded_files : list str) : ending :=
  report (process_files (print PStep4 initial) downloaded_files).

End Script.

(** The records one file adds to [processed_data]. *)
Definition emit {px} `{PixelOps px} (open_mask : str -> exn + image px)
  (file_path : str) : list (@dict px) :=
  if endswith file_path h5 then
    match try_body open_mask file_path with
    | inr (Some (record, _)) => [record]
    | _ => []
    end
  else [].

(** The state an [ending] leaves. *)
Definition final {px} (e : @ending px) : state :=
  match e with
  | Completed st => st
  | Traceback _ st => st
  end.

(** The keys of a record, in the order of lines 130-133. *)
Definition field_names : list str :=
  [py "date"; py "mean_brightness"; py "median_brightness"; py "file"].

(** The cells of a record under the four field names. *)
Definition row_of {px} (r : @dict px) : list cell :=
  map (fun k => cell_of (get r k)) field_names.

(** The dicts built at lines 129-134. *)
Definition is_record {px} (r : @dict px) : Prop :=
  exists date mean median file, r = brightness_record date mean median file.

(** ** numpy on floating-point arrays *)

Module Np.

(** The element types modelled: [float32], the type of the product's
    radiance band, and [float64]. *)
Inductive dtype := float32 | float64.

Definition prec (t : dtype) : Z :=
  match t with float32 => 24%Z | float64 => 53%Z end.

Definition emax (t : dtype) : Z :=
  match t with float32 => 128%Z | float64 => 1024%Z end.

(** An element of an array, or a numpy scalar: an IEEE 754 number and its
    type. *)
Record scalar := Scalar { dtype_of : dtype; float_of : spec_float }.

Definition positive_zero : spec_float := S754_zero false.
Definition negative_zero : spec_float := S754_zero true.

(** Addition in type [t], to nearest even. *)
Definition add (t : dtype) (x y : spec_float) : spec_float :=
  SFadd (prec t) (emax t) x y.

(** A number converted to type [t], to nearest even. *)
Definition cast (t : dtype) (x : spec_float) : spec_float :=
  match x with
  | S754_finite s m e => binary_round (prec t) (emax t) s m e
  | _ => x
  end.

(** An integer count as a float64. *)
Definition of_count (n : nat) : spec_float :=
  binary_normalize 53 1024 (Z.of_nat n) 0 false.

(** The elementwise [x > 0], the 0 taken in the type of [x]: false for a
    NaN and for a zero of either sign. *)
Definition gt_zero (x : scalar) : bool := SFltb positive_zero (float_of x).

(** *** The sum of [np.add.reduce] on a contiguous array

    The inner loop is numpy's pairwise summation: fewer than 8 elements
    are added one after the other; up to 128 elements go to 8 running
    sums, joined as a tree, then the remaining elements one by one; a
    longer array is cut in two at a multiple of 8. *)

Definition sum_in_order (t : dtype) (res : spec_float) (l : list spec_float)
  : spec_float :=
  fold_left (add t) l res.

Definition add_each (t : dtype) (r row : list spec_float) : list spec_float :=
  map (fun p => add t (fst p) (snd p)) (combine r row).

(** The loop [for (i = 8; i < n - (n % 8); i += 8) r[j] += a[i + j]]. *)
Fixpoint accumulate (t : dtype) (r l : list spec_float) (chunks : nat)
  : list spec_float * list spec_float :=
  match chunks with
  | O => (r, l)
  | S k => accumulate t (add_each t r (firstn 8 l)) (skipn 8 l) k
  end.

Definition sum_block (t : dtype) (l : list spec_float) : spec_float :=
  let n := length l in
  let '(r, rest) := accumulate t (firstn 8 l) (skipn 8 l) (n / 8 - 1) in
  let r_ i := nth i r S754_nan in
  let res := add t (add t (add t (r_ 0) (r_ 1)) (add t (r_ 2) (r_ 3)))
                   (add t (add t (r_ 4) (r_ 5)) (add t (r_ 6) (r_ 7))) in
  sum_in_order t res rest.

(** [fuel] bounds the depth of the halving; the length of the list is
    always enough. *)
Fixpoint pairwise (fuel : nat) (t : dtype) (l : list spec_float)
  : spec_float :=
  let n := length l in
  if n <? 8 then sum_in_order t negative_zero l
  else if n <=? 128 then sum_block t l
  else match fuel with
       | O => sum_block t l
       | S fuel' =>
           let n2 := n / 2 - (n / 2) mod 8 in
           add t (pairwise fuel' t (firstn n2 l))
                 (pairwise fuel' t (skipn n2 l))
       end.

Definition pairwise_sum (t : dtype) (l : list spec_float) : spec_float :=
  pairwise (length l) t l.

(** The reduction starts from the identity of [add]. *)
Definition sum (t : dtype) (l : list spec_float) : spec_float :=
  add t positive_zero (pairwise_sum t l).

(** [np.mean] of a one-dimensional array of type [t]: the sum, in type
    [t], divided by the number of elements as float64 scalars, the
    quotient converted back to [t]. *)
Definition mean_of (t : dtype) (l : list spec_float) : spec_float :=
  cast t (SFdiv 53 1024 (sum t l) (of_count (length l))).

Definition is_nan (x : spec_float) : bool :=
  match x with S754_nan => true | _ => false end.

Fixpoint insert (x : spec_float) (l : list spec_float) : list spec_float :=
  match l with
  | [] => [x]
  | y :: l' => if SFleb x y then x :: y :: l' else y :: insert x l'
  end.

Definition sort (l : list spec_float) : list spec_float :=
  fold_right insert [] l.

(** [np.median] of a one-dimensional array of type [t]: NaN when an
    element is a NaN; otherwise [np.mean] of the middle element of the
    ordered array, or of the two middle elements when the length is
    even. *)
Definition median_of (t : dtype) (l : list spec_float) : spec_float :=
  let part := sort l in
  let sz := length l in
  let middle := if Nat.even sz
                then firstn 2 (skipn (sz / 2 - 1) part)
                else firstn 1 (skipn (sz / 2) part) in
  if existsb is_nan l then S754_nan else mean_of t middle.

(** On a list of elements the type is that of the first one: the elements
    of an array all have the type of the array.  The script calls neither
    function on an empty array (line 121). *)
Definition mean (l : list scalar) : scalar :=
  match l with
  | [] => Scalar float64 S754_nan
  | x :: _ => Scalar (dtype_of x) (mean_of (dtype_of x) (map float_of l))
  end.

Definition median (l : list scalar) : scalar :=
  match l with
  | [] => Scalar float64 S754_nan
  | x :: _ => Scalar (dtype_of x) (median_of (dtype_of x) (map float_of l))
  end.

#[global] Instance ops : PixelOps scalar :=
  {| gt0 := gt_zero; np_mean := mean; np_median := median |}.

(** *** Strictly positive pixels, said without the comparison *)

(** A number strictly greater than zero: plus infinity, or finite and not
    zero with the sign bit clear. *)
Definition above_zero (x : scalar) : bool :=
  match float_of x with
  | S754_infinity false => true
  | S754_finite false _ _ => true
  | _ => false
  end.

(** The strictly positive pixels of an array, band after band and row
    after row. *)
Definition positive_pixels (a : image scalar) : list scalar :=
  flat_map (fun band => flat_map (fun row => filter above_zero row) band) a.

(** The float32 number nearest to [num / den], for integers below 2^24. *)
Definition f32 (num den : Z) : scalar :=
  Scalar float32
    (SFdiv 24 128 (binary_normalize 24 128 num 0 false)
                  (binary_normalize 24 128 den 0 false)).

(** The float64 number nearest to [num / den], for integers below 2^53. *)
Definition f64 (num den : Z) : scalar :=
  Scalar float64
    (SFdiv 53 1024 (binary_normalize 53 1024 num 0 false)
                   (binary_normalize 53 1024 den 0 false)).

End Np.

(** ** A run on concrete files *)

Module Sample.

Definition granule : str := py "viirs_data/VNP46A2.A2023032.h10v04.001.h5".
Definition fileA : str := py "viirs_data/A.h5".
Definition fileB : str := py "viirs_data/B.h5".
Definition broken : str := py "viirs_data/broken.h5".
Definition notes : str := py "viirs_data/README.txt".

(** One band of float32; the fill value of the product is -999.9. *)
Definition image_granule : image Np.scalar :=
  [[[Np.f32 (-9999) 10; Np.f32 3 2; Np.f32 0 1];
    [Np.f32 5 2; Np.f32 (-9999) 10; Np.f32 7 2]]].
Definition imageA : image Np.scalar :=
  [[[Np.f32 1 1; Np.f32 2 1; Np.f32 3 1]]].
Definition imageB : image Np.scalar :=
  [[[Np.f32 0 1; Np.f32 0 1]; [Np.f32 0 1; Np.f32 0 1]]].

Definition unreadable : exn :=
  RasterError (py "not recognized as a supported file format").

Definition open_mask (file_path : str) : exn + image Np.scalar :=
  if Str.eqb file_path granule then inr image_granule
  else if Str.eqb file_path fileA then inr imageA
  else if Str.eqb file_path fileB then inr imageB
  else inl unreadable.

Definition csv_ok (path : str) : option exn := None.

Definition csv_denied (path : str) : option exn :=
  Some (OSError (py "Permission denied")).

End Sample.

(** ** Reading a run *)

(** The names of the progress lines (line 110) among what was printed. *)
Definition processing_names {px} (out : list (@line px)) : list str :=
  flat_map (fun l => match l with PProcessing n => [n] | _ => [] end) out.

Definition is_mean {px} (l : @line px) : bool :=
  match l with PMean _ => true | _ => false end.

Definition is_failed {px} (l : @line px) : bool :=
  match l with PFailed _ => true | _ => false end.

(** A '.h5' file whose [try] body raises. *)
Definition fails {px} `{PixelOps px} (open_mask : str -> exn + image px)
  (file_path : str) : bool :=
  endswith file_path h5
  && match try_body open_mask file_path with inl _ => true | _ => false end.

(** A '.h5' file that opens and clips but has no pixel above zero. *)
Definition no_valid_pixel {px} `{PixelOps px}
  (open_mask : str -> exn + image px) (file_path : str) : bool :=
  endswith file_path h5
  && match try_body open_mask file_path with
     | inr None => true
     | _ => false
     end.

(** What one iteration of the loop prints. *)
Definition printed {px} `{PixelOps px} (open_mask : str -> exn + image px)
  (file_path : str) : list line :=
  stdout (process_file open_mask initial file_path).

(** [sep.join(fields)] for a one-character separator. *)
Fixpoint join_fields (sep : char) (fields : list str) : str :=
  match fields with
  | [] => []
  | [f] => f
  | f :: fs => f ++ sep :: join_fields sep fs
  end.

(** ** Lines 25-90: login, search, download *)

Section Main.

Variable granule : Type.

(** An exception that nothing catches before line 96, with its text. *)
Inductive fatal := Fatal (message : str).

(** The calls that leave the program, in the order they are made. *)
Inductive call :=
| CMakedirs (dir : str)                 (* line 25 *)
| CLogin                                (* line 39 *)
| CSearch                               (* line 57 *)
| CDownload (results : list granule) (local_path : str).   (* line 84 *)

(** One constructor per [print] of lines 27-90, and one for a call. *)
Inductive mline :=
| MCall (c : call)
| MRule                                 (* lines 27, 29 *)
| MTitle                                (* line 28 *)
| MStep1                                (* line 35 *)
| MAskAccount                           (* line 36 *)
| MLoginOk                              (* line 45 *)
| MLoginFailed                          (* line 47 *)
| MStep2                                (* line 54 *)
| MFound (n : nat)                      (* line 64 *)
| MNoData                               (* line 67 *)
| MFirstFive                            (* line 71 *)
| MGranule (i : nat) (extent : str)     (* line 73 *)
| MStep3                                (* line 79 *)
| MTarget (dir : str)                   (* line 80 *)
| MWait                                 (* line 81 *)
| MDownloaded (n : nat)                 (* line 89 *)
| MSavedIn.                             (* line 90 *)

(** What the libraries answer in one run: each call raises or returns.
    [login] is the truth value of the object returned;
    [temporal_extent g] is the text of [g['umm']['TemporalExtent']]. *)
Record world := {
  makedirs : str -> option fatal;
  login : fatal + bool;
  search_data : fatal + list granule;
  temporal_extent : granule -> fatal + str;
  download : list granule -> str -> fatal + list str
}.

(** Why a run stops before line 96: [exit()], or an exception. *)
Inductive stop :=
| Exit
| Crash (e : fatal).

(** A computation that prints, and stops or returns. *)
Definition M (A : Type) : Type := list mline -> list mline * (stop + A).

Definition ret {A} (a : A) : M A := fun log => (log, inr a).

Definition bind {A B} (m : M A) (k : A -> M B) : M B :=
  fun log =>
    match m log with
    | (log', inl s) => (log', inl s)
    | (log', inr a) => k a log'
    end.

Definition say (l : mline) : M unit := fun log => (log ++ [l], inr tt).

Definition exit {A} : M A := fun log => (log, inl Exit).

(** An outside call: recorded, then its answer. *)
Definition calling {A} (c : call) (answer : fatal + A) : M A :=
  fun log =>
    match answer with
    | inl e => (log ++ [MCall c], inl (Crash e))
    | inr a => (log ++ [MCall c], inr a)
    end.

Definition raise_or_pass (answer : option fatal) : fatal + unit :=
  match answer with
  | Some e => inl e
  | None => inr tt
  end.

(** [enumerate(l)] *)
Fixpoint enumerate_from {A} (i : nat) (l : list A) : list (nat * A) :=
  match l with
  | [] => []
  | a :: l' => (i, a) :: enumerate_from (S i) l'
  end.

Definition enumerate {A} (l : list A) : list (nat * A) := enumerate_from 0 l.

(** A [for] loop whose body prints, and stops or goes on. *)
Fixpoint for_each {A} (l : list A) (body : A -> M unit) : M unit :=
  match l with
  | [] => ret tt
  | a :: l' => bind (body a) (fun _ => for_each l' body)
  end.

Variable w : world.

(** The value of an expression that may raise. *)
Definition evaluate {A} (answer : fatal + A) : M A :=
  fun log =>
    match answer with
    | inl e => (log, inl (Crash e))
    | inr a => (log, inr a)
    end.

(** Line 73, for one pair of [enumerate]. *)
Definition show_granule (ig : nat * granule) : M unit :=
  bind (evaluate (temporal_extent w (snd ig)))
    (fun extent => say (MGranule (fst ig + 1) extent)).

(** Lines 72-73. *)
Definition show_first_five (results : list granule) : M unit :=
  for_each (enumerate (firstn 5 results)) show_granule.

(** Lines 25-90; the value is [downloaded_files]. *)
Definition main : M (list str) :=
  bind (calling (CMakedirs OUTPUT_DIR) (raise_or_pass (makedirs w OUTPUT_DIR)))
    (fun _ =>
  bind (say MRule) (fun _ =>
  bind (say MTitle) (fun _ =>
  bind (say MRule) (fun _ =>
  bind (say MStep1) (fun _ =>
  bind (say MAskAccount) (fun _ =>
  bind (calling CLogin (login w)) (fun auth =>
  bind (if auth : bool then say MLoginOk
        else bind (say MLoginFailed) (fun _ => exit)) (fun _ =>
  bind (say MStep2) (fun _ =>
  bind (calling CSearch (search_data w)) (fun results =>
  bind (say (MFound (length results))) (fun _ =>
  bind (if length results =? 0
        then bind (say MNoData) (fun _ => exit)
        else ret tt) (fun _ =>
  bind (say MFirstFive) (fun _ =>
  bind (show_first_five results) (fun _ =>
  bind (say MStep3) (fun _ =>
  bind (say (MTarget OUTPUT_DIR)) (fun _ =>
  bind (say MWait) (fun _ =>
  bind (calling (CDownload results OUTPUT_DIR)
          (download w results OUTPUT_DIR)) (fun downloaded_files =>
  bind (say (MDownloaded (length downloaded_files))) (fun _ =>
  bind (say MSavedIn) (fun _ =>
  ret downloaded_files)))))))))))))))))))).

(** The calls of a log, in order. *)
Definition calls (log : list mline) : list call :=
  flat_map (fun l => match l with MCall c => [c] | _ => [] end) log.

(** The granule lines of a log, in order. *)
Definition granule_lines (log : list mline) : list (nat * str) :=
  flat_map (fun l => match l with MGranule i t => [(i, t)] | _ => [] end)
    log.

End Main.

(** The whole script: lines 25-90, then lines 96-192 on the downloaded
    files. *)
Inductive outcome {px granule : Type} :=
| Stopped (log : list (mline granule)) (s : stop)
| Reached (log : list (mline granule)) (downloaded_files : list str)
    (e : @ending px).

Definition program {px} `{PixelOps px} {granule}
  (w : world granule) (open_mask : str -> exn + image px)
  (csv_error : str -> option exn) : @outcome px granule :=
  match main w [] with
  | (log, inl s) => Stopped log s
  | (log, inr downloaded_files) =>
      Reached log downloaded_files
        (script open_mask csv_error downloaded_files)
  end.

(** The files the script itself has written at the end of a whole run. *)
Definition files_written {px granule} (o : @outcome px granule)
  : list (str * list (list cell)) :=
  match o with
  | Stopped _ _ => []
  | Reached _ _ e => written (final e)
  end.

(** ** A whole run on concrete answers *)

Module SampleRun.

(** Granules are numbered; seven are found, three files are downloaded. *)
Definition extent (g : nat) : fatal + str :=
  inr (py "{'RangeDateTimes': [...]}").

Definition found : list nat := [1; 2; 3; 4; 5; 6; 7].

Definition online : world nat :=
  {| makedirs := fun _ => None;
     login := inr true;
     search_data := inr found;
     temporal_extent := extent;
     download := fun _ _ => inr [Sample.fileA; Sample.notes; Sample.granule] |}.

Definition rejected : world nat :=
  {| makedirs := fun _ => None;
     login := inr false;
     search_data := inr found;
     temporal_extent := extent;
     download := fun _ _ => inr [Sample.fileA] |}.

End SampleRun.

(** ** Reading the summary back *)

Section Reader.

Context {px : Type}.

(** What [pd.read_csv] holds in a cell. *)
Inductive parsed :=
| RText (s : str)
| RNumber (x : px)
| RInteger (z : Z)
| RNaN.

Record Table := {
  names : list str;
  values : list (list parsed)
}.

Definition is_space (c : char) : bool :=
  ((9 <=? c)%N && (c <=? 13)%N) || (c =? 32)%N.

Definition is_digit (c : char) : bool := (48 <=? c)%N && (c <=? 57)%N.

(** Decimal digits, then nothing but spaces. *)
Fixpoint digits_then_spaces (acc : Z) (seen : bool) (s : str) : option Z :=
  match s with
  | [] => if seen then Some acc else None
  | c :: s' =>
      if is_digit c
      then digits_then_spaces (10 * acc + Z.of_N (c - 48)) true s'
      else if seen && forallb is_space s then Some acc else None
  end.

Fixpoint skip_spaces (s : str) : str :=
  match s with
  | c :: s' => if is_space c then skip_spaces s' else s
  | [] => []
  end.

(** The text the parser reads as a 64-bit integer: spaces, an optional
    sign, decimal digits, spaces. *)
Definition int_literal (s : str) : option Z :=
  let number :=
    match skip_spaces s with
    | c :: s' =>
        if (c =? 45)%N then option_map Z.opp (digits_then_spaces 0 false s')
        else if (c =? 43)%N then digits_then_spaces 0 false s'
        else digits_then_spaces 0 false (c :: s')
    | [] => None
    end in
  match number with
  | Some z =>
      if ((- 2 ^ 63 <=? z) && (z <? 2 ^ 63))%Z then Some z else None
  | None => None
  end.

Definition integer_token (c : @cell px) : option Z :=
  match c with
  | CStr s => int_literal s
  | CIndex i => Some (Z.of_nat i)
  | _ => None
  end.

(** A cell read back as what was written. *)
Definition as_written (c : @cell px) : parsed :=
  match c with
  | CStr s => RText s
  | CNum x => RNumber x
  | CMissing => RNaN
  | CIndex i => RInteger (Z.of_nat i)
  end.

Definition column (j : nat) (data : list (list (@cell px))) : list cell :=
  map (fun row => nth j row CMissing) data.

Definition integer_column (j : nat) (data : list (list (@cell px))) : bool :=
  forallb (fun c => match integer_token c with
                    | Some _ => true
                    | None => false
                    end) (column j data).

(** The type of a column is inferred from all its cells.  Of the
    inference of [read_csv] the integer case is modelled: a column whose
    every cell reads as an integer holds integers.  Any other column is
    returned as written: numbers as numbers (their decimal text is not
    modelled) and text as text (text that reads as a float, a boolean or a
    missing value is outside this model). *)
Definition read_cell (data : list (list cell)) (j : nat) (c : @cell px)
  : parsed :=
  if integer_column j data
  then match integer_token c with
       | Some z => RInteger z
       | None => as_written c
       end
  else as_written c.

Fixpoint read_row (data : list (list cell)) (j : nat) (row : list (@cell px))
  : list parsed :=
  match row with
  | [] => []
  | c :: row' => read_cell data j c :: read_row data (S j) row'
  end.

(** A column without a name is called after its position. *)
Definition header_name (j : nat) (c : @cell px) : option str :=
  match c with
  | CStr [] =>
      Some (py "Unnamed: " ++ py (NilZero.string_of_uint (Nat.to_uint j)))
  | CStr s => Some s
  | _ => None
  end.

Fixpoint header_names (j : nat) (header : list (@cell px))
  : option (list str) :=
  match header with
  | [] => Some []
  | c :: header' =>
      match header_name j c, header_names (S j) header' with
      | Some n, Some ns => Some (n :: ns)
      | _, _ => None
      end
  end.

(** [pd.read_csv(path)] on the lines of a file: the first line names the
    columns, the others are the rows; [None] when there is no line. *)
Definition read_csv (lines : list (list (@cell px))) : option Table :=
  match lines with
  | [] => None
  | header :: data =>
      match header_names 0 header with
      | Some ns => Some {| names := ns; values := map (read_row data 0) data |}
      | None => None
      end
  end.



End Reader.

(** The statistics of every record are 64-bit floating-point numbers. *)
Definition statistics_are_float64 : Prop :=
  forall (open_mask : str -> exn + image Np.scalar) file_path r x,
    In r (emit open_mask file_path) ->
    get r (py "mean_brightness") = Some (VNum x)
    \/ get r (py "median_brightness") = Some (VNum x) ->
    Np.dtype_of x = Np.float64.

(** The call [c] raises [e] in the world [w]. *)
Definition raises {granule} (w : world granule) (c : call granule)
  (e : fatal) : Prop :=
  match c with
  | CMakedirs _ dir => makedirs w dir = Some e
  | CLogin _ => login w = inl e
  | CSearch _ => search_data w = inl e
  | CDownload results dir => download w results dir = inl e
  end.

(** ** Strings: facts *)

Module StrFacts.

Lemma eqb_eq (s t : str) : Str.eqb s t = true <-> s = t.
Proof.
  revert t; induction s as [|a s IH]; intros [|b t]; simpl;
    try (split; [discriminate | discriminate]); try tauto.
  rewrite andb_true_iff, N.eqb_eq, IH.
  split; [intros [-> ->]; reflexivity | intros E; inversion E; auto].
Qed.

Lemma endswith_app (s suffix : str) :
  endswith s suffix = true -> exists p, s = p ++ suffix.
Proof.
  unfold endswith. rewrite andb_true_iff. intros [_ E].
  apply eqb_eq in E.
  remember (length s - length suffix) as n eqn:En. clear En.
  exists (firstn n s). rewrite <- E. symmetry. apply firstn_skipn.
Qed.

Lemma rfind_lt (c : char) (s : str) : (rfind c s < Z.of_nat (length s))%Z.
Proof.
  induction s as [|x s IH]; simpl length; simpl rfind; [lia|].
  destruct (0 <=? rfind c s)%Z; [lia|].
  destruct (N.eqb x c); lia.
Qed.

Lemma rfind_ge (c : char) (s : str) : (-1 <= rfind c s)%Z.
Proof.
  induction s as [|x s IH]; simpl; [lia|].
  destruct (0 <=? rfind c s)%Z eqn:E; [apply Z.leb_le in E; lia|].
  destruct (N.eqb x c); lia.
Qed.

Lemma rfind_app_absent (c : char) (p s : str) :
  rfind c s = (-1)%Z -> rfind c (p ++ s) = rfind c p.
Proof.
  intros A. induction p as [|x p IH]; simpl; [exact A|].
  rewrite IH. reflexivity.
Qed.

Lemma basename_app (p s : str) :
  rfind slash s = (-1)%Z -> basename (p ++ s) = basename p ++ s.
Proof.
  intros A. unfold basename. rewrite (@rfind_app_absent _ p _ A).
  pose proof (rfind_lt slash p). pose proof (rfind_ge slash p).
  rewrite skipn_app.
  replace (Z.to_nat (rfind slash p + 1) - length p) with 0 by lia.
  reflexivity.
Qed.

Lemma split_not_nil (sep : char) (s : str) : split sep s <> [].
Proof.
  induction s as [|c s IH]; simpl; [discriminate|].
  destruct (N.eqb c sep); [discriminate|].
  destruct (split sep s); [contradiction | discriminate].
Qed.

Lemma split_length_in (sep : char) (s : str) :
  In sep s -> 2 <= length (split sep s).
Proof.
  induction s as [|c s IH]; simpl; [contradiction|].
  intros [E | I].
  - subst c. rewrite N.eqb_refl. simpl.
    pose proof (split_not_nil sep s).
    destruct (split sep s); [contradiction | simpl; lia].
  - specialize (IH I).
    destruct (N.eqb c sep); [simpl; lia|].
    destruct (split sep s) as [|f fs]; simpl in *; lia.
Qed.

Lemma h5_date_defined (file_path : str) :
  endswith file_path h5 = true ->
  exists field, date_str (basename file_path) = inr (skipn 1 field).
Proof.
  intros E. apply endswith_app in E as [p ->].
  rewrite basename_app by reflexivity.
  assert (L : 2 <= length (split dot (basename p ++ h5))).
  { apply split_length_in, in_or_app. right. left. reflexivity. }
  unfold date_str.
  destruct (split dot (basename p ++ h5)) as [|f0 [|f1 fs]];
    simpl in L; try lia.
  now exists f1.
Qed.

End StrFacts.

(** ** The loop: facts *)

Section Loop.

Context {px : Type} `{PixelOps px}.
Variable open_mask : str -> exn + image px.

Lemma process_files_app (st : state) (l1 l2 : list str) :
  process_files open_mask st (l1 ++ l2)
  = process_files open_mask (process_files open_mask st l1) l2.
Proof. unfold process_files. apply fold_left_app. Qed.

Lemma process_file_records (st : state) (f : str) :
  processed_data (process_file open_mask st f)
  = processed_data st ++ emit open_mask f.
Proof.
  unfold process_file, emit.
  destruct (endswith f h5); [|now rewrite app_nil_r].
  destruct (try_body open_mask f) as [e | [[r m]|]]; simpl;
    try reflexivity; now rewrite app_nil_r.
Qed.

Lemma process_files_records (l : list str) (st : state) :
  processed_data (process_files open_mask st l)
  = processed_data st ++ flat_map (emit open_mask) l.
Proof.
  revert st; induction l as [|f l IH]; intros; simpl; [now rewrite app_nil_r|].
  unfold process_files in *. simpl. rewrite IH, process_file_records.
  now rewrite <- app_assoc.
Qed.

Lemma process_file_written (st : state) (f : str) :
  written (process_file open_mask st f) = written st.
Proof.
  unfold process_file.
  destruct (endswith f h5); [|reflexivity].
  destruct (try_body open_mask f) as [e | [[r m]|]]; reflexivity.
Qed.

Lemma process_files_written (l : list str) (st : state) :
  written (process_files open_mask st l) = written st.
Proof.
  revert st; induction l as [|f l IH]; intros; [reflexivity|].
  unfold process_files in *. simpl. now rewrite IH, process_file_written.
Qed.

(** What was printed is only ever extended. *)
Lemma process_file_stdout (st : state) (f : str) :
  exists out, stdout (process_file open_mask st f) = stdout st ++ out.
Proof.
  unfold process_file.
  destruct (endswith f h5); [|exists []; now rewrite app_nil_r].
  destruct (try_body open_mask f) as [e | [[r m]|]]; simpl;
    rewrite <- ?app_assoc; eexists; reflexivity.
Qed.

End Loop.

(** ** The date token *)

(** C10: a path that ends in '.h5' has a basename whose split on '.' has at
    least two fields, so the field at index 1 exists and the date token is
    defined (no [IndexError]); for the basename 'A.h5' the token is '5'. *)
Theorem date_token_defined_for_h5 (file_path : str) :
  endswith file_path h5 = true ->
  2 <= length (split dot (basename file_path))
  /\ (exists field,
        nth_error (split dot (basename file_path)) 1 = Some field
        /\ date_str (basename file_path) = inr (skipn 1 field))
  /\ date_str (basename (py "A.h5")) = inr (py "5").
Proof.
  intros E. apply StrFacts.endswith_app in E as [p ->].
  assert (L : 2 <= length (split dot (basename (p ++ h5)))).
  { rewrite StrFacts.basename_app by reflexivity.
    apply StrFacts.split_length_in, in_or_app. right. left. reflexivity. }
  split; [exact L|]. split; [|reflexivity].
  unfold date_str.
  destruct (split dot (basename (p ++ h5))) as [|f0 [|f1 fs]];
    simpl in L; try lia.
  exists f1. split; reflexivity.
Qed.

Lemma date_token_defined_for_h5_witness :
  2 <= length (split dot (basename
         (py "viirs_data/VNP46A2.A2023032.h10v04.001.h5")))
  /\ (exists field,
        nth_error (split dot (basename
          (py "viirs_data/VNP46A2.A2023032.h10v04.001.h5"))) 1 = Some field
        /\ date_str (basename
             (py "viirs_data/VNP46A2.A2023032.h10v04.001.h5"))
           = inr (skipn 1 field))
  /\ date_str (basename (py "A.h5")) = inr (py "5").
Proof.
  apply (@date_token_defined_for_h5
           (py "viirs_data/VNP46A2.A2023032.h10v04.001.h5")).
  reflexivity.
Defined.

(** C2: the date token is a function of the file name alone: the field at
    index 1 of the split of the basename on '.', without its first
    character, whatever the raster holds; for
    'VNP46A2.A2023032.h10v04.001.h5' it is '2023032'. *)
Theorem date_token_from_filename :
  (forall filename,
      date_str filename
      = match split dot filename with
        | _ :: field :: _ => inr (skipn 1 field)
        | _ => inl IndexError
        end)
  /\ (forall px (ops : PixelOps px) (om1 om2 : str -> exn + image px)
        file_path r1 m1 r2 m2,
        try_body om1 file_path = inr (Some (r1, m1)) ->
        try_body om2 file_path = inr (Some (r2, m2)) ->
        get r1 (py "date") = get r2 (py "date")
        /\ get r1 (py "date")
           = Some (VStr (skipn 1
                     (nth 1 (split dot (basename file_path)) []))))
  /\ date_str (py "VNP46A2.A2023032.h10v04.001.h5") = inr (py "2023032").
Proof.
  split; [|split; [|reflexivity]].
  - intros filename. unfold date_str.
    destruct (split dot filename) as [|f0 [|f1 fs]]; reflexivity.
  - intros px ops om1 om2 f r1 m1 r2 m2 E1 E2.
    assert (D : forall (om : str -> exn + image px) r m,
               try_body om f = inr (Some (r, m)) ->
               get r (py "date")
               = Some (VStr (skipn 1 (nth 1 (split dot (basename f)) [])))).
    { intros om r m E. unfold try_body in E.
      destruct (om f) as [e|img]; [discriminate|].
      destruct (0 <? length (valid_data img)); [|discriminate].
      unfold date_str in E.
      destruct (split dot (basename f)) as [|f0 [|f1 fs]];
        try discriminate.
      simpl in E. inversion E; subst. reflexivity. }
    rewrite (D _ _ _ E1), (D _ _ _ E2). split; reflexivity.
Qed.

(** ** Files that are skipped *)

(** C6: a path that does not end in '.h5' leaves the state as it is: no
    record, nothing printed, no exception; the run is the one of the list
    without that path. *)
Theorem non_h5_silently_excluded :
  forall px (ops : PixelOps px) (open_mask : str -> exn + image px)
         (csv_error : str -> option exn) st pre file_path post,
    endswith file_path h5 = false ->
    process_file open_mask st file_path = st
    /\ emit open_mask file_path = []
    /\ process_files open_mask st (pre ++ file_path :: post)
       = process_files open_mask st (pre ++ post)
    /\ script open_mask csv_error (pre ++ file_path :: post)
       = script open_mask csv_error (pre ++ post).
Proof.
  intros px ops om csv st pre f post E.
  assert (S : forall s, process_file om s f = s).
  { intros s. unfold process_file. now rewrite E. }
  assert (P : forall s, process_files om s (pre ++ f :: post)
                        = process_files om s (pre ++ post)).
  { intros s. rewrite !process_files_app.
    unfold process_files at 1. simpl. now rewrite S. }
  repeat split; auto.
  - unfold emit. now rewrite E.
  - unfold script. now rewrite P.
Qed.

(** C3: when opening or clipping a '.h5' file raises, the iteration prints
    the progress line and one diagnostic with the error's text, adds no
    record, writes nothing, and the loop goes on with the rest of the list
    from that state; the records of the batch are those of the batch
    without the file, and the only exception that can end the script is
    that of writing the CSV. *)
Theorem raster_error_isolated :
  forall px (ops : PixelOps px) (open_mask : str -> exn + image px)
         (csv_error : str -> option exn) st pre file_path post e,
    endswith file_path h5 = true ->
    open_mask file_path = inl e ->
    let st1 := process_files open_mask st pre in
    let st2 := process_file open_mask st1 file_path in
    processed_data st2 = processed_data st1
    /\ stdout st2
       = stdout st1 ++ [PProcessing (basename file_path);
                        PFailed (exn_message e)]
    /\ written st2 = written st1
    /\ process_files open_mask st (pre ++ file_path :: post)
       = process_files open_mask st2 post
    /\ processed_data (process_files open_mask st (pre ++ file_path :: post))
       = processed_data (process_files open_mask st (pre ++ post))
    /\ (forall e' s,
          script open_mask csv_error (pre ++ file_path :: post)
          = Traceback e' s ->
          csv_error output_csv = Some e').
Proof.
  intros px ops om csv st pre f post e E R st1 st2.
  assert (S : st2 = print (PFailed (exn_message e))
                      (print (PProcessing (basename f)) st1)).
  { unfold st2, process_file, try_body. now rewrite E, R. }
  repeat split.
  - rewrite S. reflexivity.
  - rewrite S. simpl. now rewrite <- app_assoc.
  - rewrite S. reflexivity.
  - rewrite process_files_app. reflexivity.
  - rewrite !process_files_records, !flat_map_app. simpl.
    unfold emit at 2, try_body. now rewrite E, R.
  - intros e' s T. unfold script, report in T.
    destruct (processed_data _); [discriminate|].
    destruct (csv output_csv); [|discriminate].
    now inversion T.
Qed.

(** ** The report *)

Section Report.

Context {px : Type} `{PixelOps px}.
Variable open_mask : str -> exn + image px.
Variable csv_error : str -> option exn.

Lemma emit_shape (f : str) :
  emit open_mask f = []
  \/ exists date mean median,
       emit open_mask f = [brightness_record date mean median (basename f)].
Proof.
  unfold emit. destruct (endswith f h5); [|now left].
  unfold try_body. destruct (open_mask f) as [e|img]; [now left|].
  destruct (0 <? length (valid_data img)); [|now left].
  destruct (date_str (basename f)) as [e|d]; [now left|].
  right. now eexists _, _, _.
Qed.

Lemma emitted_are_records (l : list str) :
  Forall is_record (flat_map (emit open_mask) l).
Proof.
  induction l as [|f l IH]; simpl; [constructor|].
  apply Forall_app. split; [|exact IH].
  destruct (emit_shape f) as [-> | (d & m & md & ->)]; constructor;
    [now exists d, m, md, (basename f) | constructor].
Qed.

Lemma columns_stable (rs : list (@dict px)) :
  Forall is_record rs ->
  fold_left (fun seen d => add_keys seen (keys d)) rs field_names
  = field_names.
Proof.
  induction 1 as [|r rs (d & m & md & f & ->) _ IH]; [reflexivity|].
  simpl fold_left. exact IH.
Qed.

Lemma DataFrame_of_records (rs : list (@dict px)) :
  Forall is_record rs -> rs <> [] ->
  pd_DataFrame rs = {| columns := field_names; rows := map row_of rs |}.
Proof.
  intros F N. unfold pd_DataFrame.
  assert (C : fold_left (fun seen d => add_keys seen (keys d)) rs []
              = field_names).
  { destruct F as [|r rs (d & m & md & f & ->) F]; [contradiction|].
    simpl fold_left. now apply columns_stable. }
  rewrite C. reflexivity.
Qed.

Lemma script_loop_state (files : list str) :
  processed_data (final (script open_mask csv_error files))
  = flat_map (emit open_mask) files.
Proof.
  unfold script, report.
  set (s := process_files open_mask (print PStep4 initial) files).
  assert (P : processed_data s = flat_map (emit open_mask) files).
  { unfold s. now rewrite process_files_records. }
  destruct (processed_data s) eqn:D.
  - simpl. now rewrite D.
  - destruct (csv_error output_csv); simpl; now rewrite D.
Qed.

End Report.

(** C4: when every file of the list is excluded by its extension or fails
    to open or clip (the empty list included), the batch holds no record;
    and whenever the batch holds no record, the script runs to its last
    line, prints the warning and writes no file. *)
Theorem no_records_no_summary :
  forall px (ops : PixelOps px) (open_mask : str -> exn + image px)
         (csv_error : str -> option exn) files,
    let loop := process_files open_mask (print PStep4 initial) files in
    (Forall (fun f => endswith f h5 = false
                      \/ exists e, open_mask f = inl e) files ->
     processed_data loop = [])
    /\ (processed_data loop = [] ->
        exists st,
          script open_mask csv_error files = Completed st
          /\ processed_data st = []
          /\ written st = []
          /\ stdout st
             = stdout loop ++ [PNothingProcessed; PRule; PAlternativeTitle;
                               PRule; PAlternativeText; PRule; PDone;
                               PRule]).
Proof.
  intros px ops om csv files loop. split.
  - intros F. unfold loop. rewrite process_files_records. simpl.
    induction F as [|f l [E | [e E]] _ IH]; simpl; [reflexivity| |];
      rewrite IH, app_nil_r; unfold emit, try_body.
    + now rewrite E.
    + rewrite E. now destruct (endswith f h5).
  - intros Z. unfold script, report. fold loop. rewrite Z.
    eexists. split; [reflexivity|]. simpl. split; [exact Z|]. split.
    + unfold loop. now rewrite process_files_written.
    + now rewrite <- !app_assoc.
Qed.

(** C5: when the script completes with at least one record, exactly one
    file is written, named 'viirs_philadelphia_summary.csv' in the output
    directory; its first line is the four field names in the order date,
    mean_brightness, median_brightness, file, with no column before them;
    then one line of four cells per record, in the order the files were
    processed. *)
Theorem summary_file_layout :
  forall px (ops : PixelOps px) (open_mask : str -> exn + image px)
         (csv_error : str -> option exn) files st,
    script open_mask csv_error files = Completed st ->
    processed_data st <> [] ->
    let records := flat_map (emit open_mask) files in
    processed_data st = records
    /\ written st
       = [(output_csv,
           map CStr [py "date"; py "mean_brightness";
                     py "median_brightness"; py "file"]
           :: map (fun r => [cell_of (get r (py "date"));
                             cell_of (get r (py "mean_brightness"));
                             cell_of (get r (py "median_brightness"));
                             cell_of (get r (py "file"))]) records)]
    /\ output_csv = py "viirs_data/viirs_philadelphia_summary.csv"
    /\ basename output_csv = py "viirs_philadelphia_summary.csv"
    /\ map (fun r => get r (py "file")) records
       = map (fun f => Some (VStr (basename f)))
           (filter (fun f => match emit open_mask f with
                             | [] => false
                             | _ => true
                             end) files).
Proof.
  intros px ops om csv files st C N records.
  pose proof (script_loop_state om csv files) as P. rewrite C in P.
  simpl in P. fold records in P. split; [exact P|].
  split; [|split; [reflexivity|split; [reflexivity|]]].
  - unfold script, report in C.
    set (s := process_files om (print PStep4 initial) files) in *.
    assert (D : processed_data s = records).
    { unfold s, records. now rewrite process_files_records. }
    assert (W : written s = []).
    { unfold s. now rewrite process_files_written. }
    rewrite P in N. rewrite D in C.
    pose proof (DataFrame_of_records (emitted_are_records om files) N) as F.
    fold records in F.
    destruct records as [|r0 rs]; [contradiction|].
    destruct (csv output_csv); [discriminate|].
    rewrite F in C. inversion C; subst st; clear C. simpl.
    rewrite W. reflexivity.
  - clear. unfold records. induction files as [|f l IH]; [reflexivity|].
    simpl. rewrite map_app, IH.
    destruct (emit_shape om f) as [-> | (d & m & md & ->)]; reflexivity.
Qed.

(** ** The theorems on concrete files *)

(** Files [A.h5] with float32 pixels 1, 2, 3 and [B.h5] with zeros only:
    one record, for [A.h5], with mean 2 and median 2 in float32. *)
Example two_files_one_row :
  processed_data
    (final (script Sample.open_mask Sample.csv_ok
              [Sample.fileA; Sample.fileB]))
  = [brightness_record (py "5") (Np.f32 2 1) (Np.f32 2 1) (py "A.h5")].
Proof. reflexivity. Qed.

Lemma date_token_from_filename_witness :
  match try_body Sample.open_mask Sample.granule with
  | inr (Some (record, _)) =>
      get record (py "date") = Some (VStr (py "2023032"))
  | _ => False
  end.
Proof.
  destruct date_token_from_filename as (_ & D & _).
  destruct (try_body Sample.open_mask Sample.granule)
    as [e | [[r m]|]] eqn:E; try (vm_compute in E; discriminate).
  exact (proj2 (D Np.scalar Np.ops _ _ _ _ _ _ _ E E)).
Defined.

Lemma non_h5_silently_excluded_witness :
  process_file Sample.open_mask initial Sample.notes = initial
  /\ emit Sample.open_mask Sample.notes = []
  /\ process_files Sample.open_mask initial
       ([Sample.fileA] ++ Sample.notes :: [Sample.granule])
     = process_files Sample.open_mask initial
         ([Sample.fileA] ++ [Sample.granule])
  /\ script Sample.open_mask Sample.csv_ok
       ([Sample.fileA] ++ Sample.notes :: [Sample.granule])
     = script Sample.open_mask Sample.csv_ok
         ([Sample.fileA] ++ [Sample.granule]).
Proof.
  apply (@non_h5_silently_excluded Np.scalar Np.ops Sample.open_mask
           Sample.csv_ok initial [Sample.fileA] Sample.notes
           [Sample.granule]).
  reflexivity.
Defined.

Lemma raster_error_isolated_witness :
  let pre := [Sample.fileA] in
  let post := [Sample.fileB; Sample.granule] in
  let st1 := process_files Sample.open_mask initial pre in
  let st2 := process_file Sample.open_mask st1 Sample.broken in
  processed_data st2 = processed_data st1
  /\ stdout st2
     = stdout st1 ++ [PProcessing (basename Sample.broken);
                      PFailed (exn_message Sample.unreadable)]
  /\ written st2 = written st1
  /\ process_files Sample.open_mask initial (pre ++ Sample.broken :: post)
     = process_files Sample.open_mask st2 post
  /\ processed_data
       (process_files Sample.open_mask initial
          (pre ++ Sample.broken :: post))
     = processed_data (process_files Sample.open_mask initial (pre ++ post))
  /\ (forall e' s,
        script Sample.open_mask Sample.csv_denied
          (pre ++ Sample.broken :: post)
        = Traceback e' s ->
        Sample.csv_denied output_csv = Some e').
Proof.
  apply (@raster_error_isolated Np.scalar Np.ops Sample.open_mask
           Sample.csv_denied initial [Sample.fileA] Sample.broken
           [Sample.fileB; Sample.granule] Sample.unreadable);
    reflexivity.
Defined.

Lemma no_records_no_summary_witness :
  exists st,
    script Sample.open_mask Sample.csv_denied
      [Sample.notes; Sample.broken] = Completed st
    /\ processed_data st = []
    /\ written st = []
    /\ stdout st
       = stdout (process_files Sample.open_mask (print PStep4 initial)
                   [Sample.notes; Sample.broken])
         ++ [PNothingProcessed; PRule; PAlternativeTitle; PRule;
             PAlternativeText; PRule; PDone; PRule].
Proof.
  destruct (@no_records_no_summary Np.scalar Np.ops Sample.open_mask
              Sample.csv_denied [Sample.notes; Sample.broken])
    as [A B].
  apply B, A.
  constructor; [left; reflexivity|].
  constructor; [right; exists Sample.unreadable; reflexivity|].
  constructor.
Defined.

Lemma summary_file_layout_witness :
  let files := [Sample.fileA; Sample.notes; Sample.fileB;
                Sample.broken; Sample.granule] in
  let st := final (script Sample.open_mask Sample.csv_ok files) in
  let records := flat_map (emit Sample.open_mask) files in
  processed_data st = records
  /\ written st
     = [(output_csv,
         map CStr [py "date"; py "mean_brightness";
                   py "median_brightness"; py "file"]
         :: map (fun r => [cell_of (get r (py "date"));
                           cell_of (get r (py "mean_brightness"));
                           cell_of (get r (py "median_brightness"));
                           cell_of (get r (py "file"))]) records)]
  /\ output_csv = py "viirs_data/viirs_philadelphia_summary.csv"
  /\ basename output_csv = py "viirs_philadelphia_summary.csv"
  /\ map (fun r => get r (py "file")) records
     = map (fun f => Some (VStr (basename f)))
         (filter (fun f => match emit Sample.open_mask f with
                           | [] => false
                           | _ => true
                           end) files).
Proof.
  apply (@summary_file_layout Np.scalar Np.ops Sample.open_mask
           Sample.csv_ok
           [Sample.fileA; Sample.notes; Sample.fileB; Sample.broken;
            Sample.granule]).
  - reflexivity.
  - discriminate.
Defined.

(** ** The loop as a whole *)

Section LoopAccounts.

Context {px : Type} `{PixelOps px}.
Variable open_mask : str -> exn + image px.

Lemma process_file_printed (st : state) (f : str) :
  stdout (process_file open_mask st f) = stdout st ++ printed open_mask f.
Proof.
  unfold printed, process_file.
  destruct (endswith f h5); [|now rewrite app_nil_r].
  destruct (try_body open_mask f) as [e | [[r m]|]]; simpl;
    now rewrite <- ?app_assoc.
Qed.

Lemma process_files_printed (l : list str) (st : state) :
  stdout (process_files open_mask st l)
  = stdout st ++ flat_map (printed open_mask) l.
Proof.
  revert st; induction l as [|f l IH]; intros; simpl;
    [now rewrite app_nil_r|].
  unfold process_files in *. simpl. rewrite IH, process_file_printed.
  now rewrite <- app_assoc.
Qed.

(** The three ways a '.h5' file goes through the loop. *)
Lemma printed_cases (f : str) :
  (endswith f h5 = false /\ printed open_mask f = []
   /\ emit open_mask f = [] /\ fails open_mask f = false
   /\ no_valid_pixel open_mask f = false)
  \/ (endswith f h5 = true
      /\ ((exists e, printed open_mask f
                     = [PProcessing (basename f); PFailed (exn_message e)]
                     /\ emit open_mask f = [] /\ fails open_mask f = true
                     /\ no_valid_pixel open_mask f = false)
          \/ (printed open_mask f = [PProcessing (basename f)]
              /\ emit open_mask f = [] /\ fails open_mask f = false
              /\ no_valid_pixel open_mask f = true)
          \/ (exists r m, printed open_mask f
                          = [PProcessing (basename f); PMean m]
                          /\ emit open_mask f = [r]
                          /\ fails open_mask f = false
                          /\ no_valid_pixel open_mask f = false))).
Proof.
  unfold printed, process_file, emit, fails, no_valid_pixel.
  destruct (endswith f h5); [right; split; [reflexivity|] | now left].
  destruct (try_body open_mask f) as [e | [[r m]|]]; simpl.
  - left. now exists e.
  - right. right. now exists r, m.
  - right. now left.
Qed.

End LoopAccounts.

(** X1: the progress lines of the loop are the basenames of the paths
    ending in '.h5', one per such path, in list order; no other path gets
    one. *)
Theorem progress_line_per_h5_file :
  forall px (ops : PixelOps px) (open_mask : str -> exn + image px)
         st files,
    processing_names (stdout (process_files open_mask st files))
    = processing_names (stdout st)
      ++ map basename (filter (fun f => endswith f h5) files).
Proof.
  intros px ops om st files. rewrite process_files_printed.
  unfold processing_names at 1. rewrite flat_map_app. f_equal.
  induction files as [|f l IH]; [reflexivity|].
  simpl. rewrite flat_map_app, IH.
  destruct (printed_cases om f)
    as [(E & -> & _) | (E & [(e & -> & _) | [(-> & _) | (r & m & -> & _)]])];
    rewrite E; reflexivity.
Qed.

(** X2: every path ending in '.h5' ends in exactly one of three ways: a
    record and a line with its mean, a diagnostic, or neither (the array had
    no pixel above zero); so the records, the diagnostics and the silent
    files add up to the '.h5' paths of the list. *)
Theorem every_h5_file_accounted :
  forall px (ops : PixelOps px) (open_mask : str -> exn + image px)
         st files,
    let st' := process_files open_mask st files in
    length (processed_data st')
    = length (processed_data st)
      + length (filter (fun f => negb (Nat.eqb (length (emit open_mask f)) 0))
                  files)
    /\ length (filter is_mean (stdout st'))
       = length (filter is_mean (stdout st))
         + (length (processed_data st') - length (processed_data st))
    /\ length (filter is_failed (stdout st'))
       = length (filter is_failed (stdout st))
         + length (filter (fails open_mask) files)
    /\ (length (processed_data st') - length (processed_data st))
       + length (filter (fails open_mask) files)
       + length (filter (no_valid_pixel open_mask) files)
       = length (filter (fun f => endswith f h5) files).
Proof.
  intros px ops om st files st'. unfold st'.
  rewrite process_files_records, process_files_printed.
  rewrite !length_app, !filter_app, !length_app.
  replace (length (processed_data st) + length (flat_map (emit om) files)
           - length (processed_data st))
    with (length (flat_map (emit om) files)) by lia.
  assert (A : length (flat_map (emit om) files)
              = length (filter (fun f => negb (length (emit om f) =? 0))
                          files)
              /\ length (filter is_mean (flat_map (printed om) files))
                 = length (flat_map (emit om) files)
              /\ length (filter is_failed (flat_map (printed om) files))
                 = length (filter (fails om) files)
              /\ length (flat_map (emit om) files)
                 + length (filter (fails om) files)
                 + length (filter (no_valid_pixel om) files)
                 = length (filter (fun f => endswith f h5) files)).
  { induction files as [|f l (I1 & I2 & I3 & I4)]; [repeat split|].
    simpl. rewrite !filter_app, !length_app.
    destruct (printed_cases om f)
      as [(E & P & R & F & V)
         | (E & [(e & P & R & F & V)
                | [(P & R & F & V) | (r & m & P & R & F & V)]])];
      rewrite E, P, R, F, V; simpl; repeat split; lia. }
  destruct A as (A1 & A2 & A3 & A4). repeat split; lia.
Qed.

(** X3: a batch over two lists one after the other is the two batches one
    after the other: the records, and the printed lines, of [l1 ++ l2] are
    those of [l1] followed by those of [l2] run on its own; a path listed
    twice is processed twice. *)
Theorem batches_compose :
  forall px (ops : PixelOps px) (open_mask : str -> exn + image px)
         st l1 l2,
    processed_data (process_files open_mask st (l1 ++ l2))
    = processed_data (process_files open_mask st l1)
      ++ processed_data (process_files open_mask initial l2)
    /\ stdout (process_files open_mask st (l1 ++ l2))
       = stdout (process_files open_mask st l1)
         ++ stdout (process_files open_mask initial l2)
    /\ processed_data (process_files open_mask initial (l1 ++ l1))
       = processed_data (process_files open_mask initial l1)
         ++ processed_data (process_files open_mask initial l1).
Proof.
  intros px ops om st l1 l2.
  rewrite !process_files_records, !process_files_printed, !flat_map_app.
  simpl. rewrite !app_assoc. repeat split.
Qed.

(** ** The three ends of the script *)

Section Ends.

Context {px : Type} `{PixelOps px}.
Variable open_mask : str -> exn + image px.
Variable csv_error : str -> option exn.

Lemma loop_records (files : list str) :
  processed_data (process_files open_mask (print PStep4 initial) files)
  = flat_map (emit open_mask) files.
Proof. now rewrite process_files_records. Qed.

Lemma loop_written (files : list str) :
  written (process_files open_mask (print PStep4 initial) files) = [].
Proof. now rewrite process_files_written. Qed.

Lemma script_cases (files : list str) :
  let loop := process_files open_mask (print PStep4 initial) files in
  let records := flat_map (emit open_mask) files in
  let df := {| columns := field_names; rows := map row_of records |} in
  script open_mask csv_error files
  = match records, csv_error output_csv with
    | [], _ => Completed (closing (print PNothingProcessed loop))
    | _ :: _, Some e => Traceback e loop
    | _ :: _, None =>
        Completed
          (closing
             (print (PPreview (head df))
                (print PPreviewTitle
                   (print (PSaved output_csv)
                      (write_file output_csv (csv_lines df false) loop)))))
    end.
Proof.
  intros loop records df. unfold script, report. fold loop.
  assert (D : processed_data loop = records) by apply loop_records.
  rewrite D.
  assert (F : records <> [] -> pd_DataFrame records = df).
  { intros N. apply DataFrame_of_records;
      [apply emitted_are_records | exact N]. }
  destruct records as [|r rs]; [reflexivity|].
  destruct (csv_error output_csv); [reflexivity|].
  rewrite F by discriminate. reflexivity.
Qed.

(** The loop prints progress lines, means and diagnostics only. *)
Lemma loop_lines (files : list str) (l : line) :
  In l (stdout (process_files open_mask (print PStep4 initial) files)) ->
  l = PStep4 \/ (exists n, l = PProcessing n) \/ (exists m, l = PMean m)
  \/ exists t, l = PFailed t.
Proof.
  clear csv_error.
  rewrite process_files_printed. simpl. intros [<- | I]; [now left|].
  right. apply in_flat_map in I as (f & _ & I).
  destruct (printed_cases open_mask f)
    as [(_ & P & _)
       | (_ & [(e & P & _) | [(P & _) | (r & m & P & _)]])];
    rewrite P in I; simpl in I; intuition (subst; eauto).
Qed.

Lemma row_of_record (r : @dict px) :
  is_record r -> exists d m md f, row_of r = [CStr d; CNum m; CNum md; CStr f].
Proof. intros (d & m & md & f & ->). now exists d, m, md, f. Qed.

End Ends.

(** X4: a file the script writes is the summary file, with one line more
    than there are records; every line has four cells, and every line
    after the first is a string, two numbers and a string: no cell is
    missing and none is a row label. *)
Theorem summary_table_is_rectangular :
  forall px (ops : PixelOps px) (open_mask : str -> exn + image px)
         (csv_error : str -> option exn) files path lines,
    In (path, lines) (written (final (script open_mask csv_error files))) ->
    path = output_csv
    /\ length lines = S (length (flat_map (emit open_mask) files))
    /\ Forall (fun l => length l = 4) lines
    /\ Forall (fun l => exists d m md f,
                   l = [CStr d; CNum m; CNum md; CStr f]) (tl lines).
Proof.
  intros px ops om csv files path lines I.
  rewrite script_cases in I.
  pose proof (emitted_are_records om files) as R.
  pose proof (loop_written om files) as W.
  destruct (flat_map (emit om) files) as [|r rs] eqn:E.
  - simpl in I. rewrite W in I. contradiction.
  - destruct (csv output_csv).
    + simpl in I. rewrite W in I. contradiction.
    + simpl in I. rewrite W in I. simpl in I.
      destruct I as [I | []]. inversion I; subst; clear I.
      assert (S : Forall (fun l => exists d m md f,
                            l = [CStr d; CNum m; CNum md; CStr f])
                    (map row_of (r :: rs))).
      { apply Forall_map. revert R. apply Forall_impl.
        intros a. apply row_of_record. }
      split; [reflexivity|]. split; [simpl; now rewrite length_map|].
      split; [|exact S].
      constructor; [reflexivity|].
      revert S. apply Forall_impl. now intros a (d & m & md & f & ->).
Qed.

(** X5: when there are records and writing the summary raises, the script
    ends on that exception: the records are lost with the process, no file
    is written, and neither the line that reports the saved file nor the
    closing line is printed. *)
Theorem csv_failure_ends_the_script :
  forall px (ops : PixelOps px) (open_mask : str -> exn + image px)
         (csv_error : str -> option exn) files e,
    flat_map (emit open_mask) files <> [] ->
    csv_error output_csv = Some e ->
    let loop := process_files open_mask (print PStep4 initial) files in
    script open_mask csv_error files = Traceback e loop
    /\ processed_data loop = flat_map (emit open_mask) files
    /\ written loop = []
    /\ ~ In PDone (stdout loop)
    /\ (forall p, ~ In (PSaved p) (stdout loop)).
Proof.
  intros px ops om csv files e N C loop.
  split; [|split; [apply loop_records | split; [apply loop_written|]]].
  - rewrite script_cases. fold loop. rewrite C.
    destruct (flat_map (emit om) files); [contradiction | reflexivity].
  - split; [|intros p]; intros I; apply loop_lines in I;
      destruct I as [I | [(n & I) | [(m & I) | (t & I)]]]; discriminate.
Qed.

(** X6: the script reaches its last line exactly when there is no record
    or the summary can be written; it has written a file exactly when
    there is a record and the summary can be written; it never writes more
    than one file. *)
Theorem when_the_summary_is_written :
  forall px (ops : PixelOps px) (open_mask : str -> exn + image px)
         (csv_error : str -> option exn) files,
    let e := script open_mask csv_error files in
    let records := flat_map (emit open_mask) files in
    ((exists st, e = Completed st)
     <-> (records = [] \/ csv_error output_csv = None))
    /\ (written (final e) <> []
        <-> (records <> [] /\ csv_error output_csv = None))
    /\ length (written (final e)) <= 1.
Proof.
  intros px ops om csv files e records. unfold e. rewrite script_cases.
  fold records. pose proof (loop_written om files) as W.
  destruct records as [|r rs]; [|destruct (csv output_csv) as [x|]];
    simpl; rewrite W; simpl; (split; [|split; [|lia]]); split.
  - auto.
  - eauto.
  - intros N. now contradiction N.
  - intros [N _]. now contradiction N.
  - intros [st E]. discriminate.
  - intros [E | E]; discriminate.
  - intros N. now contradiction N.
  - intros [_ E]. discriminate.
  - auto.
  - eauto.
  - intros _. split; [discriminate | reflexivity].
  - discriminate.
Qed.

(** X7: when the summary is written, the script then prints the path, a
    title and a preview that holds the first five lines of the table (all
    of them when there are fewer), then the closing lines. *)
Theorem preview_is_first_five_rows :
  forall px (ops : PixelOps px) (open_mask : str -> exn + image px)
         (csv_error : str -> option exn) files,
    flat_map (emit open_mask) files <> [] ->
    csv_error output_csv = None ->
    let records := flat_map (emit open_mask) files in
    let shown := firstn 5 (map row_of records) in
    stdout (final (script open_mask csv_error files))
    = stdout (process_files open_mask (print PStep4 initial) files)
      ++ [PSaved output_csv; PPreviewTitle;
          PPreview {| columns := field_names; rows := shown |};
          PRule; PAlternativeTitle; PRule; PAlternativeText; PRule; PDone;
          PRule]
    /\ length shown = Nat.min 5 (length records)
    /\ exists rest, map row_of records = shown ++ rest.
Proof.
  intros px ops om csv files N C records shown. split; [|split].
  - rewrite script_cases, C. fold records.
    destruct records as [|r rs] eqn:E; [contradiction|].
    simpl. now rewrite <- !app_assoc.
  - unfold shown. now rewrite length_firstn, length_map.
  - exists (skipn 5 (map row_of records)). unfold shown.
    now rewrite firstn_skipn.
Qed.

(** ** File names *)

Module NameFacts.

Lemma eqb_refl (s : str) : Str.eqb s s = true.
Proof. now apply StrFacts.eqb_eq. Qed.

Lemma rfind_absent (c : char) (s : str) :
  rfind c s = (-1)%Z <-> ~ In c s.
Proof.
  induction s as [|x s IH]; simpl; [tauto|].
  pose proof (StrFacts.rfind_ge c s) as G.
  destruct (0 <=? rfind c s)%Z eqn:E.
  - apply Z.leb_le in E. split; [lia|].
    intros A. exfalso. apply A. right.
    destruct (in_dec N.eq_dec c s) as [I|NI]; [exact I|].
    apply IH in NI. lia.
  - apply Z.leb_gt in E. assert (R : rfind c s = (-1)%Z) by lia.
    apply IH in R.
    destruct (N.eqb x c) eqn:X.
    + apply N.eqb_eq in X. split; [discriminate|]. intros A. tauto.
    + apply N.eqb_neq in X. split; [|reflexivity]. intros _ [A|A]; tauto.
Qed.

Lemma basename_no_slash (p : str) : ~ In slash (basename p).
Proof.
  apply rfind_absent. induction p as [|x p IH]; [reflexivity|].
  unfold basename in *. simpl rfind.
  pose proof (StrFacts.rfind_ge slash p) as G.
  destruct (0 <=? rfind slash p)%Z eqn:E.
  - apply Z.leb_le in E.
    replace (Z.to_nat (rfind slash p + 1 + 1))
      with (S (Z.to_nat (rfind slash p + 1))) by lia.
    exact IH.
  - apply Z.leb_gt in E. assert (R : rfind slash p = (-1)%Z) by lia.
    destruct (N.eqb x slash) eqn:X; simpl.
    + exact R.
    + now rewrite R, X.
Qed.

Lemma endswith_intro (p suffix : str) : endswith (p ++ suffix) suffix = true.
Proof.
  unfold endswith. rewrite length_app.
  replace (length p + length suffix - length suffix) with (length p) by lia.
  rewrite skipn_app, skipn_all, Nat.sub_diag. simpl.
  rewrite eqb_refl, andb_true_r. apply Nat.leb_le. lia.
Qed.

Lemma basename_keeps_h5 (p : str) :
  endswith p h5 = true -> endswith (basename p) h5 = true.
Proof.
  intros E. apply StrFacts.endswith_app in E as [q ->].
  rewrite StrFacts.basename_app by reflexivity. apply endswith_intro.
Qed.

Lemma split_free (sep : char) (a : str) :
  ~ In sep a -> split sep a = [a].
Proof.
  induction a as [|x a IH]; [reflexivity|].
  intros A. simpl.
  destruct (N.eqb x sep) eqn:X.
  - apply N.eqb_eq in X. exfalso. apply A. now left.
  - rewrite IH; [reflexivity|]. intros I. apply A. now right.
Qed.

Lemma split_at_sep (sep : char) (a s : str) :
  ~ In sep a -> split sep (a ++ sep :: s) = a :: split sep s.
Proof.
  induction a as [|x a IH]; intros A; simpl.
  - now rewrite N.eqb_refl.
  - destruct (N.eqb x sep) eqn:X.
    + apply N.eqb_eq in X. exfalso. apply A. now left.
    + rewrite IH; [reflexivity|]. intros I. apply A. now right.
Qed.

End NameFacts.

(** X8: the [file] field of every record of a run is the basename of one of
    the downloaded paths: it holds no '/', and it ends in '.h5'. *)
Theorem file_field_is_a_bare_h5_name :
  forall px (ops : PixelOps px) (open_mask : str -> exn + image px)
         (csv_error : str -> option exn) files,
    Forall (fun r => exists path,
                In path files
                /\ get r (py "file") = Some (VStr (basename path))
                /\ ~ In slash (basename path)
                /\ endswith (basename path) h5 = true)
      (processed_data (final (script open_mask csv_error files))).
Proof.
  intros px ops om csv files. rewrite script_loop_state.
  apply Forall_forall. intros r I.
  apply in_flat_map in I as (f & F & I).
  exists f. split; [exact F|].
  assert (E : endswith f h5 = true).
  { unfold emit in I. destruct (endswith f h5); [reflexivity | contradiction]. }
  destruct (emit_shape om f) as [Z | (d & m & md & Z)]; rewrite Z in I;
    [contradiction|].
  destruct I as [<- | []].
  split; [reflexivity|].
  split; [apply NameFacts.basename_no_slash|].
  now apply NameFacts.basename_keeps_h5.
Qed.

(** X9: splitting a name on a character loses nothing: the fields joined
    with that character give the name back, no field holds the character,
    and there is one field more than the character occurs; fields without
    the character, joined and split again, come back as they were. *)
Theorem split_and_join :
  forall (sep : char) (s : str),
    join_fields sep (split sep s) = s
    /\ Forall (fun f => ~ In sep f) (split sep s)
    /\ length (split sep s) = S (count_occ N.eq_dec s sep)
    /\ (forall fields,
          fields <> [] ->
          Forall (fun f => ~ In sep f) fields ->
          split sep (join_fields sep fields) = fields).
Proof.
  intros sep s. split; [|split; [|split]].
  - induction s as [|x s IH]; [reflexivity|]. simpl.
    pose proof (StrFacts.split_not_nil sep s) as N.
    destruct (N.eqb x sep) eqn:X.
    + apply N.eqb_eq in X. subst x.
      destruct (split sep s) as [|f fs]; [contradiction|].
      simpl in *. now rewrite IH.
    + destruct (split sep s) as [|f [|g fs]]; [contradiction| |];
        simpl in *; now rewrite <- IH.
  - induction s as [|x s IH]; simpl; [repeat constructor; tauto|].
    destruct (N.eqb x sep) eqn:X.
    + constructor; [tauto | exact IH].
    + apply N.eqb_neq in X.
      destruct (split sep s) as [|f fs]; [repeat constructor|].
      * intros [A | []]. now apply X.
      * inversion IH; subst. constructor; [|assumption].
        intros [A | A]; [now apply X | tauto].
  - induction s as [|x s IH]; [reflexivity|]. simpl.
    pose proof (StrFacts.split_not_nil sep s) as N.
    destruct (N.eqb x sep) eqn:X.
    + apply N.eqb_eq in X. subst x.
      destruct (N.eq_dec sep sep); [|contradiction]. simpl. now rewrite IH.
    + apply N.eqb_neq in X.
      destruct (N.eq_dec x sep); [contradiction|].
      destruct (split sep s) as [|f fs]; [contradiction|]. exact IH.
  - intros fields N F. induction F as [|f fs A F IH]; [contradiction|].
    destruct fs as [|g fs].
    + simpl. now apply NameFacts.split_free.
    + change (join_fields sep (f :: g :: fs))
        with (f ++ sep :: join_fields sep (g :: fs)).
      rewrite NameFacts.split_at_sep by exact A.
      rewrite IH by discriminate. reflexivity.
Qed.

(** X10: for a name made of a first field, a '.', one character, a token
    and then either nothing or a '.' and more, where the first field and
    the token hold no '.', the date is the token; so for every name with a
    single '.', before 'h5', the date is '5'. *)
Theorem date_token_of_product_names :
  forall (first : str) (c : char) (token rest : str),
    ~ In dot first ->
    ~ In dot (c :: token) ->
    date_str (first ++ dot :: c :: token ++ dot :: rest) = inr token
    /\ date_str (first ++ dot :: c :: token) = inr token
    /\ date_str (first ++ py ".h5") = inr (py "5").
Proof.
  intros a c tok rest A T. unfold date_str. split; [|split].
  - rewrite NameFacts.split_at_sep by exact A.
    change (c :: tok ++ dot :: rest) with ((c :: tok) ++ dot :: rest).
    rewrite NameFacts.split_at_sep by exact T. reflexivity.
  - rewrite NameFacts.split_at_sep by exact A.
    rewrite NameFacts.split_free by exact T. reflexivity.
  - change (py ".h5") with (dot :: py "h5").
    rewrite NameFacts.split_at_sep by exact A. reflexivity.
Qed.

Lemma date_token_of_product_names_witness :
  date_str (py "VNP46A2" ++ dot :: 65%N :: py "2023032" ++ dot
              :: py "h10v04.001.h5") = inr (py "2023032")
  /\ date_str (py "VNP46A2" ++ dot :: 65%N :: py "2023032")
     = inr (py "2023032")
  /\ date_str (py "VNP46A2" ++ py ".h5") = inr (py "5").
Proof.
  apply (@date_token_of_product_names (py "VNP46A2") 65%N (py "2023032")
           (py "h10v04.001.h5")).
  - intros I. vm_compute in I. intuition discriminate.
  - intros I. vm_compute in I. intuition discriminate.
Defined.

(** X11: extracting the date raises exactly for the names that hold no
    '.', and the exception is then [IndexError]. *)
Theorem date_fails_without_dot :
  forall (filename : str),
    ((exists e, date_str filename = inl e) <-> ~ In dot filename)
    /\ (forall e, date_str filename = inl e -> e = IndexError).
Proof.
  intros s. unfold date_str. split; [split|].
  - intros [e E] I. apply StrFacts.split_length_in in I.
    destruct (split dot s) as [|f0 [|f1 fs]]; simpl in *;
      try lia; discriminate.
  - intros A. rewrite NameFacts.split_free by exact A. simpl. eauto.
  - intros e E. destruct (nth_error (split dot s) 1); now inversion E.
Qed.

Lemma summary_table_is_rectangular_witness :
  let files := [Sample.fileA; Sample.fileB; Sample.granule] in
  let lines :=
    match written (final (script Sample.open_mask Sample.csv_ok files)) with
    | (_, l) :: _ => l
    | [] => []
    end in
  output_csv = output_csv
  /\ length lines = S (length (flat_map (emit Sample.open_mask) files))
  /\ Forall (fun l => length l = 4) lines
  /\ Forall (fun l => exists d m md f,
                 l = [CStr d; CNum m; CNum md; CStr f]) (tl lines).
Proof.
  intros files lines.
  apply (@summary_table_is_rectangular Np.scalar Np.ops Sample.open_mask
           Sample.csv_ok files output_csv lines).
  left. reflexivity.
Defined.

Lemma csv_failure_ends_the_script_witness :
  let files := [Sample.fileA; Sample.broken] in
  let loop := process_files Sample.open_mask (print PStep4 initial) files in
  script Sample.open_mask Sample.csv_denied files
  = Traceback (OSError (py "Permission denied")) loop
  /\ processed_data loop = flat_map (emit Sample.open_mask) files
  /\ written loop = []
  /\ ~ In PDone (stdout loop)
  /\ (forall p, ~ In (PSaved p) (stdout loop)).
Proof.
  apply (@csv_failure_ends_the_script Np.scalar Np.ops Sample.open_mask
           Sample.csv_denied [Sample.fileA; Sample.broken]
           (OSError (py "Permission denied"))).
  - discriminate.
  - reflexivity.
Defined.

Lemma preview_is_first_five_rows_witness :
  let files := [Sample.fileA; Sample.granule; Sample.fileA; Sample.granule;
                Sample.fileA; Sample.granule; Sample.fileA] in
  let records := flat_map (emit Sample.open_mask) files in
  let shown := firstn 5 (map row_of records) in
  stdout (final (script Sample.open_mask Sample.csv_ok files))
  = stdout (process_files Sample.open_mask (print PStep4 initial) files)
    ++ [PSaved output_csv; PPreviewTitle;
        PPreview {| columns := field_names; rows := shown |};
        PRule; PAlternativeTitle; PRule; PAlternativeText; PRule; PDone;
        PRule]
  /\ length shown = Nat.min 5 (length records)
  /\ exists rest, map row_of records = shown ++ rest.
Proof.
  apply (@preview_is_first_five_rows Np.scalar Np.ops Sample.open_mask
           Sample.csv_ok
           [Sample.fileA; Sample.granule; Sample.fileA; Sample.granule;
            Sample.fileA; Sample.granule; Sample.fileA]).
  - discriminate.
  - reflexivity.
Defined.


(** ** Login, search and download *)

Section MainFacts.

Variable granule : Type.
Variable w : world granule.

Lemma enumerate_from_fst {A} (l : list A) (i : nat) :
  map fst (enumerate_from i l) = seq i (length l).
Proof.
  revert i; induction l as [|a l IH]; intros; simpl; [reflexivity|].
  now rewrite IH.
Qed.

Lemma enumerate_from_snd {A} (l : list A) (i : nat) :
  map snd (enumerate_from i l) = l.
Proof.
  revert i; induction l as [|a l IH]; intros; simpl; [reflexivity|].
  now rewrite IH.
Qed.

(** The loop of lines 72-73 makes no call and never exits; when it ends,
    it has printed one line per item, numbered from the item's index. *)
Lemma show_loop (items : list (nat * granule)) (log : list (mline granule)) :
  match for_each items (show_granule w) log with
  | (log', inl s) => calls log' = calls log /\ exists e, s = Crash e
  | (log', inr _) =>
      calls log' = calls log
      /\ exists ts,
           map (temporal_extent w) (map snd items) = map inr ts
           /\ granule_lines log'
              = granule_lines log
                ++ combine (map (fun i => i + 1) (map fst items)) ts
  end.
Proof.
  revert log; induction items as [|[i g] items IH]; intros log.
  - simpl. split; [reflexivity|]. exists []. now rewrite app_nil_r.
  - simpl. unfold bind at 1, show_granule at 1, bind at 1, evaluate, say.
    simpl. destruct (temporal_extent w g) as [e|t].
    + split; [reflexivity | now exists e].
    + specialize (IH (log ++ [MGranule granule (i + 1) t])).
      destruct (for_each items (show_granule w) (log ++ [MGranule granule (i + 1) t]))
        as [log' [s|u]].
      * destruct IH as [C E]. split; [|exact E].
        rewrite C. unfold calls. rewrite flat_map_app. simpl.
        now rewrite app_nil_r.
      * destruct IH as [C (ts & T & G)]. split.
        -- rewrite C. unfold calls. rewrite flat_map_app. simpl.
           now rewrite app_nil_r.
        -- exists (t :: ts). split; [simpl; now rewrite T|].
           rewrite G. unfold granule_lines. rewrite flat_map_app. simpl.
           now rewrite <- app_assoc.
Qed.

Lemma main_cases :
  main w []
  = let mk := MCall (CMakedirs granule OUTPUT_DIR) in
    match makedirs w OUTPUT_DIR with
    | Some e => ([mk], inl (Crash e))
    | None =>
        let l1 := [mk; MRule granule; MTitle granule; MRule granule;
                   MStep1 granule; MAskAccount granule; MCall (CLogin granule)]
        in
        match login w with
        | inl e => (l1, inl (Crash e))
        | inr false => (l1 ++ [MLoginFailed granule], inl Exit)
        | inr true =>
            let l2 := l1 ++ [MLoginOk granule; MStep2 granule;
                             MCall (CSearch granule)] in
            match search_data w with
            | inl e => (l2, inl (Crash e))
            | inr [] => (l2 ++ [MFound granule 0; MNoData granule], inl Exit)
            | inr (g :: gs) =>
                match show_first_five w (g :: gs)
                        (l2 ++ [MFound granule (length (g :: gs));
                                MFirstFive granule]) with
                | (l3, inl s) => (l3, inl s)
                | (l3, inr _) =>
                    let l4 := l3 ++ [MStep3 granule; MTarget granule OUTPUT_DIR;
                                     MWait granule;
                                     MCall (CDownload (g :: gs) OUTPUT_DIR)] in
                    match download w (g :: gs) OUTPUT_DIR with
                    | inl e => (l4, inl (Crash e))
                    | inr files =>
                        (l4 ++ [MDownloaded granule (length files);
                                MSavedIn granule], inr files)
                    end
                end
            end
        end
    end.
Proof.
  unfold main, bind, calling, say, exit, ret, raise_or_pass.
  destruct (makedirs w OUTPUT_DIR); [reflexivity|]. simpl.
  destruct (login w) as [e|[|]]; simpl; try reflexivity.
  destruct (search_data w) as [e|[|g gs]]; simpl; try reflexivity.
  destruct (show_first_five w (g :: gs) _) as [l3 [s|u]]; try reflexivity.
  destruct (download w (g :: gs) OUTPUT_DIR); simpl;
    now rewrite <- ?app_assoc.
Qed.

End MainFacts.

Lemma script_written_needs {px} `{PixelOps px}
  (open_mask : str -> exn + image px) (csv_error : str -> option exn)
  (files : list str) :
  written (final (script open_mask csv_error files)) <> [] ->
  flat_map (emit open_mask) files <> [] /\ csv_error output_csv = None.
Proof.
  rewrite script_cases. pose proof (loop_written open_mask files) as W.
  destruct (flat_map (emit open_mask) files) as [|r rs];
    [|destruct (csv_error output_csv)]; simpl; rewrite W; simpl; intros N.
  - now contradiction N.
  - now contradiction N.
  - split; [discriminate | reflexivity].
Qed.

Ltac settle_gate :=
  simpl in *; repeat split; intros;
  repeat match goal with
         | H : _ /\ _ |- _ => destruct H
         | H : _ \/ _ |- _ => destruct H
         | H : False |- _ => destruct H
         | H : exists _, _ |- _ => destruct H
         end;
  try discriminate;
  first [ now left | now (right; left) | now (right; right; left)
        | now (right; split) | idtac ].

Ltac settle_raise :=
  let I := fresh "I" in
  let R := fresh "R" in
  intros I R; simpl in I;
  repeat (destruct I as [I | I];
          [ subst; simpl in R |- *;
            first [ discriminate R
                  | congruence
                  | (split; [reflexivity | congruence]) ]
          | ]);
  contradiction.

(** The calls come in one order, and each is made only after the one
    before has answered well. *)
Lemma calls_in_order :
  forall granule (w : world granule),
    let log := fst (main w []) in
    let mk := CMakedirs granule OUTPUT_DIR in
    (calls log = [mk]
     \/ calls log = [mk; CLogin granule]
     \/ calls log = [mk; CLogin granule; CSearch granule]
     \/ exists rs,
          calls log = [mk; CLogin granule; CSearch granule;
                       CDownload rs OUTPUT_DIR])
    /\ (In (CSearch granule) (calls log) -> login w = inr true)
    /\ (forall rs d,
          In (CDownload rs d) (calls log) ->
          login w = inr true /\ search_data w = inr rs /\ rs <> []
          /\ d = OUTPUT_DIR)
    /\ (snd (main w []) = inl Exit
        <-> makedirs w OUTPUT_DIR = None
            /\ (login w = inr false
                \/ (login w = inr true /\ search_data w = inr []))).
Proof.
  intros granule w log mk. unfold log. rewrite main_cases. cbv zeta.
  destruct (makedirs w OUTPUT_DIR) as [e0|]; [settle_gate|].
  destruct (login w) as [e1|[|]]; [settle_gate| |settle_gate].
  destruct (search_data w) as [e2|[|g gs]]; [settle_gate|settle_gate|].
  unfold show_first_five.
  match goal with
  | |- context [for_each ?items ?body ?l] =>
      pose proof (show_loop w items l) as L;
      destruct (for_each items body l) as [l3 [s|u]]
  end.
  - destruct L as [C [e ->]]. simpl fst. simpl snd. rewrite C.
    settle_gate.
  - destruct L as [C _].
    assert (K : forall tail,
               calls (l3 ++ MStep3 granule :: MTarget granule OUTPUT_DIR
                         :: MWait granule
                         :: MCall (CDownload (g :: gs) OUTPUT_DIR) :: tail)
               = [mk; CLogin granule; CSearch granule;
                  CDownload (g :: gs) OUTPUT_DIR] ++ calls tail).
    { intros tail. unfold calls at 1. rewrite flat_map_app.
      fold (calls l3). rewrite C. reflexivity. }
    assert (D : forall rs d,
               In (CDownload rs d)
                 [mk; CLogin granule; CSearch granule;
                  CDownload (g :: gs) OUTPUT_DIR] ->
               @inr fatal bool true = inr true
               /\ @inr fatal _ (g :: gs) = inr rs
               /\ rs <> [] /\ d = OUTPUT_DIR).
    { intros rs d [A | [A | [A | [A | []]]]]; try discriminate.
      inversion A; subst. repeat split. discriminate. }
    destruct (download w (g :: gs) OUTPUT_DIR) as [e3|files]; simpl fst;
      simpl snd; [|rewrite <- app_assoc; simpl app]; rewrite K;
      (split; [right; right; right; now exists (g :: gs)|]);
      (split; [reflexivity|]); (split; [exact D|]); settle_gate.
Qed.

(** A call that raises is the last call, and its exception ends the
    run. *)
Lemma raising_call_ends_the_run :
  forall granule (w : world granule) c e,
    In c (calls (fst (main w []))) ->
    raises w c e ->
    last (calls (fst (main w []))) c = c
    /\ snd (main w []) = inl (Crash e).
Proof.
  intros granule w c e. rewrite main_cases. cbv zeta.
  destruct (makedirs w OUTPUT_DIR) as [e0|] eqn:EM; [settle_raise|].
  destruct (login w) as [e1|[|]] eqn:EL; [settle_raise| |settle_raise].
  destruct (search_data w) as [e2|[|g gs]] eqn:ES;
    [settle_raise|settle_raise|].
  unfold show_first_five.
  match goal with
  | |- context [for_each ?items ?body ?l] =>
      pose proof (show_loop w items l) as L;
      destruct (for_each items body l) as [l3 [s|u]]
  end.
  - destruct L as [C [e' ->]]. simpl fst. simpl snd. rewrite C.
    settle_raise.
  - destruct L as [C _].
    assert (K : forall tail,
               calls (l3 ++ MStep3 granule :: MTarget granule OUTPUT_DIR
                         :: MWait granule
                         :: MCall (CDownload (g :: gs) OUTPUT_DIR) :: tail)
               = [CMakedirs granule OUTPUT_DIR; CLogin granule;
                  CSearch granule; CDownload (g :: gs) OUTPUT_DIR]
                 ++ calls tail).
    { intros tail. unfold calls at 1. rewrite flat_map_app.
      fold (calls l3). rewrite C. reflexivity. }
    destruct (download w (g :: gs) OUTPUT_DIR) as [e3|files] eqn:ED;
      simpl fst; simpl snd; [|rewrite <- app_assoc; simpl app]; rewrite K;
      settle_raise.
Qed.

(** X13: the outside calls of lines 25-90 are made in the order makedirs,
    login, search, download, each at most once; a call that raises is the
    last call and its exception ends the run, so a failing makedirs is
    followed by no login, search or download; the search is made only
    after a login that succeeded, the download only after a search that
    found something, with the results of that search and the output
    directory; and the script leaves through [exit()] exactly when the
    login is refused or the search finds nothing. *)
Theorem calls_are_gated :
  forall granule (w : world granule),
    let log := fst (main w []) in
    let mk := CMakedirs granule OUTPUT_DIR in
    (calls log = [mk]
     \/ calls log = [mk; CLogin granule]
     \/ calls log = [mk; CLogin granule; CSearch granule]
     \/ exists rs,
          calls log = [mk; CLogin granule; CSearch granule;
                       CDownload rs OUTPUT_DIR])
    /\ (forall c e,
          In c (calls log) -> raises w c e ->
          last (calls log) c = c /\ snd (main w []) = inl (Crash e))
    /\ (In (CSearch granule) (calls log) -> login w = inr true)
    /\ (forall rs d,
          In (CDownload rs d) (calls log) ->
          login w = inr true /\ search_data w = inr rs /\ rs <> []
          /\ d = OUTPUT_DIR)
    /\ (snd (main w []) = inl Exit
        <-> makedirs w OUTPUT_DIR = None
            /\ (login w = inr false
                \/ (login w = inr true /\ search_data w = inr []))).
Proof.
  intros granule w log mk.
  destruct (calls_in_order w) as (A & B & C & D).
  split; [exact A|]. split; [|split; [exact B | split; [exact C | exact D]]].
  intros c e. apply raising_call_ends_the_run.
Qed.

(** X14: when the download returns, the granule lines printed before it
    are those of the first five results of the search, or of all when
    there are fewer, numbered from 1 in the order of the results. *)
Theorem first_five_granules_numbered :
  forall granule (w : world granule) files,
    snd (main w []) = inr files ->
    exists rs ts,
      search_data w = inr rs
      /\ download w rs OUTPUT_DIR = inr files
      /\ map (temporal_extent w) (firstn 5 rs) = map inr ts
      /\ length ts = Nat.min 5 (length rs)
      /\ granule_lines (fst (main w [])) = combine (seq 1 (length ts)) ts.
Proof.
  intros granule w files. rewrite main_cases.
  destruct (makedirs w OUTPUT_DIR) as [e0|]; [discriminate|].
  destruct (login w) as [e1|[|]]; try discriminate.
  destruct (search_data w) as [e2|[|g gs]]; try discriminate.
  unfold show_first_five, enumerate.
  match goal with
  | |- context [for_each ?items ?body ?l] =>
      pose proof (show_loop w items l) as L;
      destruct (for_each items body l) as [l3 [s|u]]
  end; [discriminate|].
  destruct L as [_ (ts & T & G)].
  rewrite enumerate_from_snd in T. rewrite enumerate_from_fst in G.
  destruct (download w (g :: gs) OUTPUT_DIR) as [e3|fs] eqn:D;
    [discriminate|].
  simpl snd. intros E. inversion E; subst fs; clear E.
  assert (Len : length ts = length (firstn 5 (g :: gs))).
  { apply (f_equal (@length _)) in T. now rewrite !length_map in T. }
  exists (g :: gs), ts. split; [reflexivity|]. split; [exact D|].
  split; [exact T|]. split; [now rewrite Len, length_firstn|].
  rewrite <- Len in G. remember (length ts) as n eqn:En. clear En Len.
  assert (S1 : map (fun i => i + 1) (seq 0 n) = seq 1 n).
  { rewrite <- seq_shift. apply map_ext. intros i. lia. }
  rewrite S1 in G. simpl fst. unfold granule_lines in *.
  rewrite !flat_map_app, G. remember (combine (seq 1 n) ts) as c.
  simpl. now rewrite !app_nil_r.
Qed.

Lemma first_five_granules_numbered_witness :
  exists rs ts,
    search_data SampleRun.online = inr rs
    /\ download SampleRun.online rs OUTPUT_DIR
       = inr [Sample.fileA; Sample.notes; Sample.granule]
    /\ map (temporal_extent SampleRun.online) (firstn 5 rs) = map inr ts
    /\ length ts = Nat.min 5 (length rs)
    /\ granule_lines (fst (main SampleRun.online []))
       = combine (seq 1 (length ts)) ts.
Proof.
  apply (@first_five_granules_numbered nat SampleRun.online
           [Sample.fileA; Sample.notes; Sample.granule]).
  reflexivity.
Defined.

(** X15: over the whole script, a summary file is written only when the
    login succeeded, the search found something, the download of those
    results returned, one of the downloaded files gave a record, and the
    write did not fail; the file is then the one of the report on the
    downloaded files. *)
Theorem summary_needs_the_whole_chain :
  forall px (ops : PixelOps px) granule (w : world granule)
         (open_mask : str -> exn + image px)
         (csv_error : str -> option exn),
    files_written (program w open_mask csv_error) <> [] ->
    login w = inr true
    /\ exists rs files,
         search_data w = inr rs /\ rs <> []
         /\ download w rs OUTPUT_DIR = inr files
         /\ flat_map (emit open_mask) files <> []
         /\ csv_error output_csv = None
         /\ files_written (program w open_mask csv_error)
            = written (final (script open_mask csv_error files)).
Proof.
  intros px ops granule w om csv. unfold program. rewrite main_cases.
  cbv zeta.
  destruct (makedirs w OUTPUT_DIR) as [e0|]; [intros N; now contradiction N|].
  destruct (login w) as [e1|[|]]; try (intros N; now contradiction N).
  destruct (search_data w) as [e2|[|g gs]];
    try (intros N; now contradiction N).
  destruct (show_first_five w (g :: gs) _) as [l3 [s|u]];
    [intros N; now contradiction N|].
  destruct (download w (g :: gs) OUTPUT_DIR) as [e3|files] eqn:D;
    [intros N; now contradiction N|].
  simpl. intros N. apply script_written_needs in N as [R C].
  split; [reflexivity|]. exists (g :: gs), files.
  repeat split; try assumption. discriminate.
Qed.

Lemma summary_needs_the_whole_chain_witness :
  login SampleRun.online = inr true
  /\ exists rs files,
       search_data SampleRun.online = inr rs /\ rs <> []
       /\ download SampleRun.online rs OUTPUT_DIR = inr files
       /\ flat_map (emit Sample.open_mask) files <> []
       /\ Sample.csv_ok output_csv = None
       /\ files_written
            (program SampleRun.online Sample.open_mask Sample.csv_ok)
          = written (final (script Sample.open_mask Sample.csv_ok files)).
Proof.
  apply (@summary_needs_the_whole_chain Np.scalar Np.ops nat SampleRun.online
           Sample.open_mask Sample.csv_ok).
  discriminate.
Defined.

(** X16: the loop prints something for a path exactly when the path is some
    text followed by '.h5' (the text may be empty), and what it prints then
    starts with the progress line of the path's basename. *)
Theorem processed_iff_h5_suffix :
  forall px (ops : PixelOps px) (open_mask : str -> exn + image px)
         file_path,
    ((exists p, file_path = p ++ py ".h5")
     <-> printed open_mask file_path <> [])
    /\ (printed open_mask file_path = []
        \/ exists rest,
             printed open_mask file_path
             = PProcessing (basename file_path) :: rest).
Proof.
  intros px ops om f.
  destruct (printed_cases om f)
    as [(E & P & _)
       | (E & [(e & P & _) | [(P & _) | (r & m & P & _)]])];
    rewrite P.
  - split; [|now left]. split; [|intros N; now contradiction N].
    intros [p ->]. change (py ".h5") with h5 in E.
    rewrite NameFacts.endswith_intro in E. discriminate.
  - split; [|right; eauto]. split; [discriminate|].
    intros _. now apply StrFacts.endswith_app.
  - split; [|right; eauto]. split; [discriminate|].
    intros _. now apply StrFacts.endswith_app.
  - split; [|right; eauto]. split; [discriminate|].
    intros _. now apply StrFacts.endswith_app.
Qed.

(** ** Floating-point pixels *)

Module NpFacts.

(** The comparison [x > 0] holds exactly for the numbers above zero. *)
Lemma gt_zero_above (x : Np.scalar) : Np.gt_zero x = Np.above_zero x.
Proof. destruct x as [t [[|]|[|]| |[|] m e]]; reflexivity. Qed.

Lemma filter_concat {A} (f : A -> bool) (l : list (list A)) :
  filter f (concat l) = flat_map (filter f) l.
Proof.
  induction l as [|x l IH]; [reflexivity|].
  simpl. now rewrite filter_app, IH.
Qed.

Lemma flat_map_concat {A B} (g : list A -> list B) (a : list (list (list A))) :
  flat_map g (concat a) = flat_map (fun band => flat_map g band) a.
Proof.
  induction a as [|band a IH]; [reflexivity|].
  simpl. now rewrite flat_map_app, IH.
Qed.

(** What the script selects with [out_image[out_image > 0]] is the list of
    the strictly positive pixels. *)
Lemma valid_data_positive (a : image Np.scalar) :
  valid_data a = Np.positive_pixels a.
Proof.
  unfold valid_data, flatten, Np.positive_pixels.
  rewrite filter_concat, flat_map_concat.
  apply flat_map_ext. intros band. apply flat_map_ext. intros row.
  apply filter_ext. intros x. apply gt_zero_above.
Qed.

Lemma positive_pixels_In (a : image Np.scalar) (x : Np.scalar) :
  In x (Np.positive_pixels a)
  <-> Np.above_zero x = true
      /\ exists band row, In band a /\ In row band /\ In x row.
Proof.
  unfold Np.positive_pixels. rewrite in_flat_map. split.
  - intros (band & B & I). apply in_flat_map in I as (row & R & I).
    apply filter_In in I as [I P]. split; [exact P|]. now exists band, row.
  - intros (P & band & row & B & R & I). exists band. split; [exact B|].
    apply in_flat_map. exists row. split; [exact R|].
    apply filter_In. now split.
Qed.

(** The halving of the pairwise sum ends within the fuel it is given. *)
Lemma pairwise_fuel (t : Np.dtype) (f1 : nat) :
  forall f2 l, length l <= f1 -> length l <= f2 ->
               Np.pairwise f1 t l = Np.pairwise f2 t l.
Proof.
  induction f1 as [|f1 IH]; intros f2 l L1 L2.
  - destruct l; [|simpl in L1; lia]. now destruct f2.
  - destruct f2 as [|f2].
    + destruct l; [reflexivity | simpl in L2; lia].
    + cbn [Np.pairwise]. destruct (length l <? 8) eqn:A; [reflexivity|].
      destruct (length l <=? 128) eqn:B; [reflexivity|].
      apply Nat.leb_gt in B.
      set (n2 := length l / 2 - (length l / 2) mod 8).
      assert (H2 : 0 < n2 < length l).
      { unfold n2.
        pose proof (Nat.div_mod_eq (length l) 2) as D2.
        pose proof (Nat.mod_upper_bound (length l) 2 ltac:(lia)) as M2.
        pose proof (Nat.mod_upper_bound (length l / 2) 8 ltac:(lia)) as M8.
        lia. }
      f_equal; apply IH; rewrite ?length_firstn, ?length_skipn; lia.
Qed.

End NpFacts.

(** C1: for a '.h5' file that opens and clips to an array of floats, the
    pixels that count are those strictly greater than zero (plus infinity
    or a positive finite number; a zero of either sign, a negative number
    and a NaN do not count).  When there is none, the file adds no record.
    Otherwise it adds one record whose [mean_brightness] and
    [median_brightness] are [np.mean] and [np.median] of those pixels, and
    an array with the same strictly positive pixels gives the same
    record. *)
Theorem statistics_over_positive_pixels :
  forall (open_mask : str -> exn + image Np.scalar) st file_path out_image,
    endswith file_path h5 = true ->
    open_mask file_path = inr out_image ->
    let positive := Np.positive_pixels out_image in
    let st' := process_file open_mask st file_path in
    (forall x, In x positive
               <-> Np.above_zero x = true
                   /\ exists band row,
                        In band out_image /\ In row band /\ In x row)
    /\ match positive with
       | [] => processed_data st' = processed_data st
       | _ :: _ =>
           exists r,
             processed_data st' = processed_data st ++ [r]
             /\ get r (py "mean_brightness") = Some (VNum (Np.mean positive))
             /\ get r (py "median_brightness")
                = Some (VNum (Np.median positive))
       end
    /\ (forall (open_mask' : str -> exn + image Np.scalar) out_image',
          open_mask' file_path = inr out_image' ->
          Np.positive_pixels out_image' = positive ->
          processed_data (process_file open_mask' st file_path)
          = processed_data st').
Proof.
  intros om st f img E R positive st'.
  destruct (StrFacts.h5_date_defined f E) as (field & T).
  assert (B : forall (om' : str -> exn + image Np.scalar) img',
             om' f = inr img' ->
             emit om' f
             = match Np.positive_pixels img' with
               | [] => []
               | _ :: _ =>
                   [brightness_record (skipn 1 field)
                      (Np.mean (Np.positive_pixels img'))
                      (Np.median (Np.positive_pixels img'))
                      (basename f)]
               end).
  { intros om' img' R'. unfold emit, try_body.
    rewrite E, R', T, NpFacts.valid_data_positive.
    now destruct (Np.positive_pixels img'). }
  split; [apply NpFacts.positive_pixels_In|]. split.
  - unfold st'. rewrite process_file_records, (B om img R). fold positive.
    destruct positive as [|x l]; [now rewrite app_nil_r|].
    eexists. split; [reflexivity|]. split; reflexivity.
  - intros om' img' R' V. unfold st'.
    rewrite !process_file_records, (B om' img' R'), (B om img R), V.
    reflexivity.
Qed.

Lemma statistics_over_positive_pixels_witness :
  let positive := [Np.f32 3 2; Np.f32 5 2; Np.f32 7 2] in
  let st' := process_file Sample.open_mask initial Sample.granule in
  (forall x, In x positive
             <-> Np.above_zero x = true
                 /\ exists band row,
                      In band Sample.image_granule /\ In row band
                      /\ In x row)
  /\ (exists r,
        processed_data st' = processed_data initial ++ [r]
        /\ get r (py "mean_brightness") = Some (VNum (Np.f32 5 2))
        /\ get r (py "median_brightness") = Some (VNum (Np.f32 5 2)))
  /\ (forall (open_mask' : str -> exn + image Np.scalar) out_image',
        open_mask' Sample.granule = inr out_image' ->
        Np.positive_pixels out_image' = positive ->
        processed_data (process_file open_mask' initial Sample.granule)
        = processed_data st').
Proof.
  apply (@statistics_over_positive_pixels Sample.open_mask initial
           Sample.granule Sample.image_granule);
    reflexivity.
Defined.

(** ** The type of the statistics *)

Lemma positive_pixels_dtype (t : Np.dtype) (a : image Np.scalar) :
  Forall (Forall (Forall (fun x => Np.dtype_of x = t))) a ->
  Forall (fun x => Np.dtype_of x = t) (Np.positive_pixels a).
Proof.
  intros F. apply Forall_forall. intros x I.
  apply NpFacts.positive_pixels_In in I as (_ & band & row & B & R & I).
  rewrite Forall_forall in F. specialize (F band B).
  rewrite Forall_forall in F. specialize (F row R).
  rewrite Forall_forall in F. now apply F.
Qed.

(** The float32 array of the sample granule gives float32 statistics, so
    the statistics are not always 64-bit numbers. *)
Lemma statistics_not_all_float64 : ~ statistics_are_float64.
Proof.
  intros H.
  specialize (H Sample.open_mask Sample.granule
                (brightness_record (py "2023032") (Np.f32 5 2) (Np.f32 5 2)
                   (py "VNP46A2.A2023032.h10v04.001.h5"))
                (Np.f32 5 2)).
  assert (E : Np.float32 = Np.float64).
  { apply H; [left; reflexivity | left; reflexivity]. }
  discriminate E.
Qed.

(** C7, amended: for a file whose array has elements of one floating-point
    type ([float32] or [float64]), the mean and the median of its record
    are numbers of that type: 64-bit for a [float64] array, 32-bit for a
    [float32] array. *)
Theorem statistics_have_array_dtype :
  forall (open_mask : str -> exn + image Np.scalar) file_path out_image t,
    open_mask file_path = inr out_image ->
    Forall (Forall (Forall (fun x => Np.dtype_of x = t))) out_image ->
    Forall (fun r => exists mean median,
                get r (py "mean_brightness") = Some (VNum mean)
                /\ get r (py "median_brightness") = Some (VNum median)
                /\ Np.dtype_of mean = t /\ Np.dtype_of median = t)
      (emit open_mask file_path).
Proof.
  intros om f img t R F. unfold emit, try_body. rewrite R.
  destruct (endswith f h5); [|constructor].
  rewrite NpFacts.valid_data_positive.
  pose proof (positive_pixels_dtype F) as P.
  destruct (Np.positive_pixels img) as [|x l]; [constructor|].
  simpl (0 <? _). cbv iota.
  destruct (date_str (basename f)) as [e|d]; constructor; [|constructor].
  inversion P as [|? ? T _]; subst.
  exists (np_mean (x :: l)), (np_median (x :: l)).
  repeat split; reflexivity.
Qed.

Lemma statistics_have_array_dtype_witness :
  Forall (fun r => exists mean median,
              get r (py "mean_brightness") = Some (VNum mean)
              /\ get r (py "median_brightness") = Some (VNum median)
              /\ Np.dtype_of mean = Np.float32
              /\ Np.dtype_of median = Np.float32)
    (emit Sample.open_mask Sample.granule).
Proof.
  apply (@statistics_have_array_dtype Sample.open_mask Sample.granule
           Sample.image_granule Np.float32).
  - reflexivity.
  - repeat constructor.
Defined.

(** ** Reading the summary back: facts *)

Section ReadBack.

Context {px : Type} `{PixelOps px}.





Variable open_mask : str -> exn + image px.



End ReadBack.




(** Written with row labels instead, the same table would come back with a
    fifth column, named after its position, before the four fields. *)
Example row_labels_would_add_a_column :
  option_map (@names _)
    (read_csv
       (csv_lines
          (pd_DataFrame
             (processed_data
                (final (script Sample.open_mask Sample.csv_ok
                          [Sample.fileA])))) true))
  = Some [py "Unnamed: 0"; py "date"; py "mean_brightness";
          py "median_brightness"; py "file"].
Proof. reflexivity. Qed.
